(** * dev-event: connection cache and event route

    A shallow embedding of the database connection helper (two variants of
    [lib/mongodb]) and of the [/api/events] route handlers ([POST], [GET]).

    Asynchronous code is read sequentially, one request at a time, which is how
    a single invocation behaves under the cooperative scheduler: a promise is
    represented by the outcome its [await] observes, and every external
    collaborator (database driver, media service, form decoding) answers through
    an explicit oracle. *)

From Stdlib Require Import String Ascii List ZArith Lia Sorted Permutation.
From stdpp Require Import base option list gmap strings.
Import ListNotations.

Set Warnings "-register-all".
Open Scope string_scope.
Open Scope list_scope.

(** ** JavaScript values *)

(** A [File] taken from a multipart form. *)
Record File := mkFile {
  file_name : string;
  file_type : string;
  file_bytes : list Byte.byte
}.

(** Values that flow through the handlers.  [VNumber] keeps the lexeme of the
    literal: no claim computes with numbers.  [VObject] is the member list of an
    object produced by [JSON.parse], in source order: a name written twice is
    listed twice, and the property JavaScript keeps is the last one. *)
Inductive JsValue :=
| VUndefined
| VNull
| VBool (b : bool)
| VNumber (lexeme : string)
| VString (s : string)
| VArray (items : list JsValue)
| VObject (members : list (string * JsValue))
| VFile (f : File).

(** What a [throw] or a rejected promise carries: an instance of [Error], with
    its [name] and [message], or any other value.  The handlers tell the two
    apart with [e instanceof Error]. *)
Inductive Thrown :=
| ErrorInstance (name message : string)
| NotAnError (value : JsValue).

(** Result of running a piece of code: it completes normally or abruptly. *)
Inductive Completion (A : Type) :=
| Normal (a : A)
| Throw (e : Thrown).
Arguments Normal {A} a.
Arguments Throw {A} e.

(** A promise, represented by what awaiting it yields. *)
Inductive Promise (A : Type) :=
| Fulfills (a : A)
| Rejects (e : Thrown).
Arguments Fulfills {A} a.
Arguments Rejects {A} e.

(** ** Stateful computations that may throw

    Mutations made before a [throw] stay: the state is returned in both
    cases. *)
Definition M (S A : Type) : Type := S -> Completion A * S.

Definition ret {S A} (a : A) : M S A := fun s => (Normal a, s).
Definition throw {S A} (e : Thrown) : M S A := fun s => (Throw e, s).
Definition bind {S A B} (m : M S A) (k : A -> M S B) : M S B :=
  fun s => match m s with
           | (Normal a, s') => k a s'
           | (Throw e, s') => (Throw e, s')
           end.
Definition try_catch {S A} (m : M S A) (handler : Thrown -> M S A) : M S A :=
  fun s => match m s with
           | (Normal a, s') => (Normal a, s')
           | (Throw e, s') => handler e s'
           end.
Definition get {S} : M S S := fun s => (Normal s, s).
Definition modify {S} (f : S -> S) : M S unit := fun s => (Normal tt, f s).

(** [await p]: the value of a fulfilled promise, or its rejection thrown. *)
Definition await {S A} (p : Promise A) : M S A :=
  match p with
  | Fulfills a => ret a
  | Rejects e => throw e
  end.

Declare Scope js_scope.
Delimit Scope js_scope with js.
Notation "x <- m ;; k" := (bind m (fun x => k))
  (at level 100, m at next level, right associativity) : js_scope.
Notation "m ;;; k" := (bind m (fun _ => k))
  (at level 100, right associativity) : js_scope.
Open Scope js_scope.

(** ** The connection cache ([lib/mongodb]) *)

(** The object [connect] resolves to ([typeof mongoose]). *)
Definition Handle := nat.

Record MongooseCache := mkCache {
  conn : option Handle;
  promise : option (Promise Handle)
}.

Record ConnectOptions := { bufferCommands : bool }.

(** One call of [mongoose.connect(uri, options)]. *)
Record ConnectCall := {
  call_uri : option string;
  call_options : ConnectOptions
}.

(** The state [connectDB] works on.  [cached] is the one object that both the
    module binding [cached] and [global.mongoose] refer to, so a write through
    either is seen through the other; [connect_calls] records the connection
    attempts started so far, oldest first. *)
Record ConnState := mkConn {
  cached : MongooseCache;
  connect_calls : list ConnectCall
}.

(** [!MONGODB_URI] for a value of type [string | undefined]. *)
Definition not_uri (u : option string) : bool :=
  match u with
  | None => true
  | Some s => if decide (s = "") then true else false
  end.

Definition missing_uri_error : Thrown :=
  ErrorInstance "Error"
    "Please define the MONGODB_URI environment variable inside .env.local".

(** What a module evaluation leaves behind: its constant and its cache. *)
Record Loaded := {
  MONGODB_URI : option string;
  loaded_cache : MongooseCache
}.

(** [global.mongoose || { conn: null, promise: null }]; afterwards
    [global.mongoose] is this same object. *)
Definition initial_cache (global_mongoose : option MongooseCache) : MongooseCache :=
  match global_mongoose with
  | Some c => c
  | None => {| conn := None; promise := None |}
  end.

Section Driver.

(** The driver: the promise returned by a [mongoose.connect] call, given the
    calls made so far (this one last). *)
Variable mongoose_connect : list ConnectCall -> Promise Handle.

Definition set_promise (p : option (Promise Handle)) : M ConnState unit :=
  modify (fun s => {| cached := {| conn := conn (cached s); promise := p |};
                      connect_calls := connect_calls s |}).

Definition set_conn (c : option Handle) : M ConnState unit :=
  modify (fun s => {| cached := {| conn := c; promise := promise (cached s) |};
                      connect_calls := connect_calls s |}).

(** [mongoose.connect(uri, options).then((mongoose) => mongoose)]: one more
    attempt on the network; the derived promise settles like the driver's. *)
Definition connect (uri : option string) (options : ConnectOptions)
  : M ConnState (Promise Handle) :=
  fun s =>
    let calls := connect_calls s ++ [{| call_uri := uri; call_options := options |}] in
    (Normal (mongoose_connect calls),
     {| cached := cached s; connect_calls := calls |}).

(** [await cached.promise], where the awaited value may also be [null]. *)
Definition await_cached (p : option (Promise Handle)) : M ConnState (option Handle) :=
  match p with
  | None => ret None
  | Some p => h <- await p ;; ret (Some h)
  end.

(** The statements both variants end with:
    [try { cached.conn = await cached.promise } catch (e) { cached.promise = null; throw e }]
    and [return cached.conn]. *)
Definition await_and_cache : M ConnState (option Handle) :=
  try_catch
    (s <- get ;;
     c <- await_cached (promise (cached s)) ;;
     set_conn c)
    (fun e => set_promise None ;;; throw e) ;;;
  s <- get ;;
  ret (conn (cached s)).

End Driver.

(** *** Variant that validates the URI at module scope *)
Module ModuleScopeCheck.
Section Driver.
Variable mongoose_connect : list ConnectCall -> Promise Handle.

(** Evaluating the module: the constant is read from the environment, the
    guard runs, the cache is taken from [global.mongoose] or created. *)
Definition load (env_MONGODB_URI : option string)
    (global_mongoose : option MongooseCache) : Completion Loaded :=
  if not_uri env_MONGODB_URI then Throw missing_uri_error
  else Normal {| MONGODB_URI := env_MONGODB_URI;
                 loaded_cache := initial_cache global_mongoose |}.

Definition connectDB (MONGODB_URI : option string) : M ConnState (option Handle) :=
  s <- get ;;
  match conn (cached s) with
  | Some h => ret (Some h)
  | None =>
      (match promise (cached s) with
       | None =>
           let opts := {| bufferCommands := false |} in
           p <- connect mongoose_connect MONGODB_URI opts ;;
           set_promise (Some p)
       | Some _ => ret tt
       end) ;;;
      await_and_cache
  end.

End Driver.
End ModuleScopeCheck.

(** *** Variant that validates the URI inside [connectDB] *)
Module CallTimeCheck.
Section Driver.
Variable mongoose_connect : list ConnectCall -> Promise Handle.

Definition load (env_MONGODB_URI : option string)
    (global_mongoose : option MongooseCache) : Completion Loaded :=
  Normal {| MONGODB_URI := env_MONGODB_URI;
            loaded_cache := initial_cache global_mongoose |}.

Definition connectDB (MONGODB_URI : option string) : M ConnState (option Handle) :=
  s <- get ;;
  match conn (cached s) with
  | Some h => ret (Some h)
  | None =>
      (match promise (cached s) with
       | None =>
           if not_uri MONGODB_URI then throw missing_uri_error
           else
             let options := {| bufferCommands := false |} in
             p <- connect mongoose_connect MONGODB_URI options ;;
             set_promise (Some p)
       | Some _ => ret tt
       end) ;;;
      await_and_cache
  end.

End Driver.
End CallTimeCheck.

(** ** [JSON.parse]

    The grammar of ECMA-404 as [JSON.parse] accepts it: a lexer from characters
    to tokens and a parser from tokens to a value.  Strings are kept as UTF-8
    bytes; a [\uXXXX] escape is decoded to the bytes of its code unit. *)

Inductive Token :=
| TLBracket | TRBracket | TLBrace | TRBrace | TComma | TColon
| TString (s : string)
| TNumber (lexeme : string)
| TTrue | TFalse | TNull.

Definition quote_char : ascii := "034"%char.

Definition is_ws (c : ascii) : bool :=
  let n := nat_of_ascii c in
  (n =? 32)%nat || (n =? 9)%nat || (n =? 10)%nat || (n =? 13)%nat.

Definition is_digit (c : ascii) : bool :=
  let n := nat_of_ascii c in (48 <=? n)%nat && (n <=? 57)%nat.

Definition hex_value (c : ascii) : option nat :=
  let n := nat_of_ascii c in
  if (48 <=? n)%nat && (n <=? 57)%nat then Some (n - 48)%nat
  else if (65 <=? n)%nat && (n <=? 70)%nat then Some (n - 55)%nat
  else if (97 <=? n)%nat && (n <=? 102)%nat then Some (n - 87)%nat
  else None.

(** UTF-8 bytes of a 16-bit code unit. *)
Definition utf8_of_code_unit (n : nat) : list ascii :=
  if (n <? 128)%nat then [ascii_of_nat n]
  else if (n <? 2048)%nat then
    [ascii_of_nat (192 + n / 64); ascii_of_nat (128 + n mod 64)]
  else
    [ascii_of_nat (224 + n / 4096); ascii_of_nat (128 + (n / 64) mod 64);
     ascii_of_nat (128 + n mod 64)].

Definition string_of_chars (l : list ascii) : string :=
  fold_right String EmptyString l.

(** The character an escape [\c] stands for. *)
Definition simple_escape (c : ascii) : option ascii :=
  if Ascii.eqb c quote_char then Some quote_char
  else if Ascii.eqb c "\" then Some "\"%char
  else if Ascii.eqb c "/" then Some "/"%char
  else if Ascii.eqb c "b" then Some (ascii_of_nat 8)
  else if Ascii.eqb c "f" then Some (ascii_of_nat 12)
  else if Ascii.eqb c "n" then Some (ascii_of_nat 10)
  else if Ascii.eqb c "r" then Some (ascii_of_nat 13)
  else if Ascii.eqb c "t" then Some (ascii_of_nat 9)
  else None.

(** The rest of a string literal, after its opening quote: the decoded
    characters and what follows the closing quote. *)
Fixpoint lex_string (cs : list ascii) : option (list ascii * list ascii) :=
  match cs with
  | [] => None
  | c :: rest =>
      if Ascii.eqb c quote_char then Some ([], rest)
      else if Ascii.eqb c "\" then
        match rest with
        | e :: rest' =>
            if Ascii.eqb e "u" then
              match rest' with
              | h1 :: h2 :: h3 :: h4 :: rest'' =>
                  match hex_value h1, hex_value h2, hex_value h3, hex_value h4 with
                  | Some a, Some b, Some c', Some d =>
                      match lex_string rest'' with
                      | Some (s, r) =>
                          Some (utf8_of_code_unit (((a * 16 + b) * 16 + c') * 16 + d) ++ s, r)
                      | None => None
                      end
                  | _, _, _, _ => None
                  end
              | _ => None
              end
            else
              match simple_escape e, lex_string rest' with
              | Some x, Some (s, r) => Some (x :: s, r)
              | _, _ => None
              end
        | [] => None
        end
      else if (nat_of_ascii c <? 32)%nat then None
      else
        match lex_string rest with
        | Some (s, r) => Some (c :: s, r)
        | None => None
        end
  end.

(** The longest prefix of digits, and the rest. *)
Fixpoint span_digits (cs : list ascii) : list ascii * list ascii :=
  match cs with
  | c :: rest =>
      if is_digit c then
        let (ds, r) := span_digits rest in (c :: ds, r)
      else ([], cs)
  | [] => ([], [])
  end.

(** A number literal: an optional minus sign, an integer part ([0], or a
    nonzero digit and more digits), an optional fraction (a dot and digits) and
    an optional exponent ([e] or [E], an optional sign, digits). *)
Definition lex_number (cs : list ascii) : option (list ascii * list ascii) :=
  let (sign, cs1) :=
    match cs with
    | c :: r => if Ascii.eqb c "-" then ([c], r) else ([], cs)
    | [] => ([], cs)
    end in
  let int_part :=
    match cs1 with
    | c :: r =>
        if Ascii.eqb c "0" then Some ([c], r)
        else if is_digit c then let (ds, r') := span_digits r in Some (c :: ds, r')
        else None
    | [] => None
    end in
  match int_part with
  | None => None
  | Some (int_digits, cs2) =>
      let frac_part :=
        match cs2 with
        | c :: r =>
            if Ascii.eqb c "." then
              match span_digits r with
              | ([], _) => None
              | (ds, r') => Some (c :: ds, r')
              end
            else Some ([], cs2)
        | [] => Some ([], cs2)
        end in
      match frac_part with
      | None => None
      | Some (frac, cs3) =>
          let exp_part :=
            match cs3 with
            | c :: r =>
                if Ascii.eqb c "e" || Ascii.eqb c "E" then
                  let (esign, r1) :=
                    match r with
                    | s :: r' =>
                        if Ascii.eqb s "+" || Ascii.eqb s "-" then ([s], r') else ([], r)
                    | [] => ([], r)
                    end in
                  match span_digits r1 with
                  | ([], _) => None
                  | (ds, r2) => Some (c :: esign ++ ds, r2)
                  end
                else Some ([], cs3)
            | [] => Some ([], cs3)
            end in
          match exp_part with
          | None => None
          | Some (ex, cs4) => Some (sign ++ int_digits ++ frac ++ ex, cs4)
          end
      end
  end.

(** [strip_prefix p cs]: what follows [p] at the head of [cs]. *)
Fixpoint strip_prefix (p cs : list ascii) : option (list ascii) :=
  match p, cs with
  | [], _ => Some cs
  | x :: p', c :: cs' => if Ascii.eqb x c then strip_prefix p' cs' else None
  | _ :: _, [] => None
  end.

(** The token stream of a text.  Every round consumes at least one character,
    so [fuel] above the length of the text is never exhausted. *)
Fixpoint lex (fuel : nat) (cs : list ascii) : option (list Token) :=
  match fuel with
  | O => None
  | S fuel =>
      match cs with
      | [] => Some []
      | c :: rest =>
          let punct (t : Token) :=
            match lex fuel rest with Some ts => Some (t :: ts) | None => None end in
          let keyword (word : string) (t : Token) :=
            match strip_prefix (list_ascii_of_string word) cs with
            | Some r => match lex fuel r with Some ts => Some (t :: ts) | None => None end
            | None => None
            end in
          if is_ws c then lex fuel rest
          else if Ascii.eqb c "[" then punct TLBracket
          else if Ascii.eqb c "]" then punct TRBracket
          else if Ascii.eqb c "{" then punct TLBrace
          else if Ascii.eqb c "}" then punct TRBrace
          else if Ascii.eqb c "," then punct TComma
          else if Ascii.eqb c ":" then punct TColon
          else if Ascii.eqb c quote_char then
            match lex_string rest with
            | Some (s, r) =>
                match lex fuel r with
                | Some ts => Some (TString (string_of_chars s) :: ts)
                | None => None
                end
            | None => None
            end
          else if Ascii.eqb c "t" then keyword "true" TTrue
          else if Ascii.eqb c "f" then keyword "false" TFalse
          else if Ascii.eqb c "n" then keyword "null" TNull
          else
            match lex_number cs with
            | Some (n, r) =>
                match lex fuel r with
                | Some ts => Some (TNumber (string_of_chars n) :: ts)
                | None => None
                end
            | None => None
            end
      end
  end.

(** One value at the head of a token stream.  [parse_elements] reads the
    elements of an array after its first bracket, [parse_members] the members
    of an object after its first brace.  A call consumes a token before the
    second call after it, so twice the number of tokens is fuel enough. *)
Fixpoint parse_value (fuel : nat) (ts : list Token) : option (JsValue * list Token) :=
  match fuel with
  | O => None
  | S fuel =>
      match ts with
      | TNull :: r => Some (VNull, r)
      | TTrue :: r => Some (VBool true, r)
      | TFalse :: r => Some (VBool false, r)
      | TString s :: r => Some (VString s, r)
      | TNumber n :: r => Some (VNumber n, r)
      | TLBracket :: TRBracket :: r => Some (VArray [], r)
      | TLBracket :: r =>
          match parse_elements fuel r with
          | Some (vs, r') => Some (VArray vs, r')
          | None => None
          end
      | TLBrace :: TRBrace :: r => Some (VObject [], r)
      | TLBrace :: r =>
          match parse_members fuel r with
          | Some (ms, r') => Some (VObject ms, r')
          | None => None
          end
      | _ => None
      end
  end
with parse_elements (fuel : nat) (ts : list Token) : option (list JsValue * list Token) :=
  match fuel with
  | O => None
  | S fuel =>
      match parse_value fuel ts with
      | Some (v, TRBracket :: r) => Some ([v], r)
      | Some (v, TComma :: r) =>
          match parse_elements fuel r with
          | Some (vs, r') => Some (v :: vs, r')
          | None => None
          end
      | _ => None
      end
  end
with parse_members (fuel : nat) (ts : list Token)
  : option (list (string * JsValue) * list Token) :=
  match fuel with
  | O => None
  | S fuel =>
      match ts with
      | TString k :: TColon :: r =>
          match parse_value fuel r with
          | Some (v, TRBrace :: r') => Some ([(k, v)], r')
          | Some (v, TComma :: r') =>
              match parse_members fuel r' with
              | Some (ms, r'') => Some ((k, v) :: ms, r'')
              | None => None
              end
          | _ => None
          end
      | _ => None
      end
  end.

(** The value a text denotes, if it is a JSON text. *)
Definition json_value (text : string) : option JsValue :=
  let cs := list_ascii_of_string text in
  match lex (S (length cs)) cs with
  | Some ts =>
      match parse_value (2 * length ts + 2) ts with
      | Some (v, []) => Some v
      | _ => None
      end
  | None => None
  end.

(** Texts of the messages the engine puts in the errors it raises itself. *)
Inductive EngineError :=
| JsonSyntax (text : string)
| NotAFunction (property : string)
| PropertyOfUndefined (property : string)
| ObjectNotExtensible (property : string).

Definition Engine := EngineError -> string.

(** [JSON.parse(text)]: the value, or a [SyntaxError]. *)
Definition JSON_parse (engine : Engine) (text : string) : Completion JsValue :=
  match json_value text with
  | Some v => Normal v
  | None => Throw (ErrorInstance "SyntaxError" (engine (JsonSyntax text)))
  end.

Definition dq (s : string) : string :=
  String quote_char (s +:+ String quote_char EmptyString).

(** ** Truthiness

    What [if (x)] makes of a value ([ToBoolean]): [undefined], [null], [false],
    a zero and the empty string are falsy, every object is truthy. *)

Fixpoint digits_value (ds : list ascii) (acc : N) : N :=
  match ds with
  | [] => acc
  | d :: rest => digits_value rest (acc * 10 + N.of_nat (nat_of_ascii d - 48))
  end.

(** Whether the number a literal denotes is zero.  The literal stands for
    [m * 10 ^ e] with [m] the digits of its integer and fraction parts; as a
    double this is zero when [m] is zero, or when the value is at most
    [2 ^ -1075], half the least positive double. *)
Definition number_is_zero (lexeme : string) : bool :=
  let cs := list_ascii_of_string lexeme in
  let unsigned :=
    match cs with
    | c :: r => if Ascii.eqb c "-" then r else cs
    | [] => cs
    end in
  let (int_digits, after_int) := span_digits unsigned in
  let (frac_digits, after_frac) :=
    match after_int with
    | c :: r => if Ascii.eqb c "." then span_digits r else ([], after_int)
    | [] => ([], after_int)
    end in
  let exponent : Z :=
    match after_frac with
    | _ :: s :: r =>
        if Ascii.eqb s "-" then (- Z.of_N (digits_value (fst (span_digits r)) 0))%Z
        else if Ascii.eqb s "+" then Z.of_N (digits_value (fst (span_digits r)) 0)
        else Z.of_N (digits_value (fst (span_digits (s :: r))) 0)
    | _ => 0%Z
    end in
  let m := digits_value (int_digits ++ frac_digits) 0 in
  let e := (exponent - Z.of_nat (length frac_digits))%Z in
  (m =? 0)%N || ((e <? 0)%Z && (Z.of_N m * 2 ^ 1075 <=? 10 ^ (- e))%Z).

Definition truthy (v : JsValue) : bool :=
  match v with
  | VUndefined | VNull => false
  | VBool b => b
  | VNumber lexeme => negb (number_is_zero lexeme)
  | VString s => if decide (s = "") then false else true
  | VArray _ | VObject _ | VFile _ => true
  end.

(** Truthiness of a value that was thrown or passed as an error. *)
Definition truthy_thrown (e : Thrown) : bool :=
  match e with
  | ErrorInstance _ _ => true
  | NotAnError v => truthy v
  end.

(** Truthiness of the first argument of a callback, [None] being
    [undefined]. *)
Definition truthy_error (error : option Thrown) : bool :=
  match error with
  | Some e => truthy_thrown e
  | None => false
  end.

(** ** Multipart forms *)

Inductive FormDataEntryValue :=
| EntryString (s : string)
| EntryFile (f : File).

(** The entries of a form, in order; a name may occur more than once. *)
Definition FormData := list (string * FormDataEntryValue).

(** [formData.get(name)]: the first value of that name, [None] for [null]. *)
Fixpoint FormData_get (name : string) (entries : FormData) : option FormDataEntryValue :=
  match entries with
  | [] => None
  | (k, v) :: rest => if decide (k = name) then Some v else FormData_get name rest
  end.

Definition value_of_entry (v : FormDataEntryValue) : JsValue :=
  match v with
  | EntryString s => VString s
  | EntryFile f => VFile f
  end.

(** Truthiness of what [formData.get] returns: [null] and the empty string are
    falsy, a file is an object. *)
Definition truthy_entry (v : option FormDataEntryValue) : bool :=
  match v with
  | None => false
  | Some (EntryString s) => if decide (s = "") then false else true
  | Some (EntryFile _) => true
  end.

(** The string [JSON.parse] makes of its argument before parsing it. *)
Definition ToString_entry (v : option FormDataEntryValue) : string :=
  match v with
  | None => "null"
  | Some (EntryString s) => s
  | Some (EntryFile _) => "[object File]"
  end.

(** ** Ordinary objects *)

Record JsObject := mkObject {
  properties : gmap string JsValue;
  extensible : bool
}.

Definition TypeError (engine : Engine) (what : EngineError) : Thrown :=
  ErrorInstance "TypeError" (engine what).

(** Defining or assigning a data property of an ordinary object whose
    properties are all plain data properties: it fails only when the property
    is new and the object is not extensible.  This is
    [CreateDataPropertyOrThrow], and also a strict-mode assignment [o.k = v]. *)
Definition CreateDataPropertyOrThrow (engine : Engine) (o : JsObject)
    (k : string) (v : JsValue) : Completion JsObject :=
  match properties o !! k with
  | Some _ => Normal {| properties := <[k := v]> (properties o); extensible := extensible o |}
  | None =>
      if extensible o
      then Normal {| properties := <[k := v]> (properties o); extensible := extensible o |}
      else Throw (TypeError engine (ObjectNotExtensible k))
  end.

Fixpoint AddEntriesFromIterable (engine : Engine) (o : JsObject) (entries : FormData)
  : Completion JsObject :=
  match entries with
  | [] => Normal o
  | (k, v) :: rest =>
      match CreateDataPropertyOrThrow engine o k (value_of_entry v) with
      | Normal o' => AddEntriesFromIterable engine o' rest
      | Throw e => Throw e
      end
  end.

(** [Object.fromEntries(formData.entries())]: the entries are added, in order,
    to a fresh object. *)
Definition Object_fromEntries (engine : Engine) (entries : FormData) : Completion JsObject :=
  AddEntriesFromIterable engine {| properties := ∅; extensible := true |} entries.

(** The object literal [{ ...event, tags: tags, agenda: agenda }]. *)
Definition spread_with_tags_agenda (event : JsObject) (tags agenda : JsValue)
  : gmap string JsValue :=
  <["agenda" := agenda]> (<["tags" := tags]> (properties event)).

(** ** The media service and the event collection *)

Record UploadOptions := { resource_type : string; folder : string }.

(** One call of [upload_stream(options, callback).end(buffer)]. *)
Record UploadCall := {
  upload_options : UploadOptions;
  upload_buffer : list Byte.byte
}.

(** The part of the service's answer the handler reads. *)
Record UploadResult := { secure_url : string }.

(** A record of the event collection. *)
Record StoredDoc := {
  doc_fields : gmap string JsValue;
  createdAt : nat
}.

(** A response built by [NextResponse.json(body, { status })]; the body is the
    object handed over, before it is serialised. *)
Inductive Body :=
| MessageOnly (message : string)
| MessageError (message : string) (error : string)
| MessageCaught (message : string) (error : Thrown)
| MessageEvent (message : string) (event : StoredDoc)
| MessageEvents (message : string) (events : list StoredDoc).

Record NextResponse := json {
  body : Body;
  status : Z
}.

Definition body_message (b : Body) : string :=
  match b with
  | MessageOnly m | MessageError m _ | MessageCaught m _
  | MessageEvent m _ | MessageEvents m _ => m
  end.

(** The request, as far as the handler looks at it. *)
Record NextRequest := { req_formData : Promise FormData }.

(** How the collaborators answer during one request. *)
Record Env := {
  engine : Engine;
  (** the arguments [(error, results)] the media service calls back with *)
  upload_stream : UploadCall -> option Thrown * option UploadResult;
  (** the error the database answers an insert of this document with, if any *)
  create_rejects : gmap string JsValue -> option Thrown;
  (** the error the database answers the query with, if any *)
  find_rejects : option Thrown;
  (** the time at which an insert is stamped *)
  now : nat
}.

(** Everything a handler can change.  [C] is the state of the connection
    module; [uploads] and [creates] list the calls made to the media service and
    the documents handed to [Event.create]; [collection] is the event
    collection in the database; [console] what [console.error] printed. *)
Record World (C : Type) := mkWorld {
  conn_state : C;
  uploads : list UploadCall;
  creates : list (gmap string JsValue);
  collection : list StoredDoc;
  console : list Thrown
}.
Arguments mkWorld {C}.
Arguments conn_state {C}.
Arguments uploads {C}.
Arguments creates {C}.
Arguments collection {C}.
Arguments console {C}.

(** Running code of the connection module inside a handler. *)
Definition lift_conn {C A} (m : M C A) : M (World C) A :=
  fun w =>
    let (r, c) := m (conn_state w) in
    (r, mkWorld c (uploads w) (creates w) (collection w) (console w)).

Definition lift_completion {S A} (c : Completion A) : M S A :=
  fun s => (c, s).

Definition console_error {C} (e : Thrown) : M (World C) unit :=
  modify (fun w => mkWorld (conn_state w) (uploads w) (creates w) (collection w)
                           (console w ++ [e])).

(** Records sorted on [createdAt]; a negative direction is descending.  *)
Definition createdAt_before (direction : Z) (a b : StoredDoc) : bool :=
  if (direction <? 0)%Z then (createdAt b <=? createdAt a)%nat
  else (createdAt a <=? createdAt b)%nat.

Fixpoint insert_sorted (direction : Z) (d : StoredDoc) (l : list StoredDoc) : list StoredDoc :=
  match l with
  | [] => [d]
  | x :: rest =>
      if createdAt_before direction d x then d :: l
      else x :: insert_sorted direction d rest
  end.

Definition sort_createdAt (direction : Z) (l : list StoredDoc) : list StoredDoc :=
  fold_right (insert_sorted direction) [] l.

Section Route.

Context {C R : Type}.

(** [connectDB] as imported from [@/lib/mongodb]; the handlers only await it. *)
Variable connectDB : M C R.
Variable env : Env.

(** Modelled from the spec: the Event model ([@/database/event.model]) is not
    among the sources.  [Event.create(doc)] either is rejected by the database
    or stores [doc] with its creation time and returns the stored record. *)
Definition Event_create (doc : gmap string JsValue) : M (World C) StoredDoc :=
  fun w =>
    match create_rejects env doc with
    | Some e =>
        (Throw e, mkWorld (conn_state w) (uploads w) (creates w ++ [doc])
                          (collection w) (console w))
    | None =>
        let stored := {| doc_fields := doc; createdAt := now env |} in
        (Normal stored,
         mkWorld (conn_state w) (uploads w) (creates w ++ [doc])
                 (collection w ++ [stored]) (console w))
    end.

(** Modelled from the spec: [Event.find().sort({ createdAt: direction })]
    either is rejected or yields every record of the collection, ordered on the
    creation time. *)
Definition Event_find_sort_createdAt (direction : Z) : M (World C) (list StoredDoc) :=
  fun w =>
    match find_rejects env with
    | Some e => (Throw e, w)
    | None => (Normal (sort_createdAt direction (collection w)), w)
    end.

(** [file.arrayBuffer()] on what [formData.get("image") as File] returned:
    a text value has no such method. *)
Definition arrayBuffer (file : option FormDataEntryValue) : Completion (Promise (list Byte.byte)) :=
  match file with
  | Some (EntryFile f) => Normal (Fulfills (file_bytes f))
  | _ => Throw (TypeError (engine env) (NotAFunction "arrayBuffer"))
  end.

(** The promise around [cloudinary.uploader.upload_stream(...).end(buffer)].
    The callback is [if (error) return reject(error); resolve(results)]: the
    promise rejects when the callback receives a truthy error, otherwise it
    resolves with the callback's [results]. *)
Definition upload (options : UploadOptions) (buffer : list Byte.byte)
  : M (World C) (Promise (option UploadResult)) :=
  fun w =>
    let call := {| upload_options := options; upload_buffer := buffer |} in
    let p := match upload_stream env call with
             | (Some error, results) =>
                 if truthy_thrown error then Rejects error else Fulfills results
             | (None, results) => Fulfills results
             end in
    (Normal p, mkWorld (conn_state w) (uploads w ++ [call]) (creates w)
                       (collection w) (console w)).

(** [(uploadResult as { secure_url: string }).secure_url] *)
Definition get_secure_url (uploadResult : option UploadResult) : Completion string :=
  match uploadResult with
  | Some r => Normal (secure_url r)
  | None => Throw (TypeError (engine env) (PropertyOfUndefined "secure_url"))
  end.

(** [e instanceof Error ? e.message : "Unknown"] *)
Definition error_text (e : Thrown) : string :=
  match e with
  | ErrorInstance _ message => message
  | NotAnError _ => "Unknown"
  end.

Definition POST (req : NextRequest) : M (World C) NextResponse :=
  try_catch
    (lift_conn connectDB ;;;
     formData <- await (req_formData req) ;;
     match Object_fromEntries (engine env) formData with
     | Throw _ => ret (json (MessageOnly "Invalid JSON data format") 400)
     | Normal event =>
         let file := FormData_get "image" formData in
         if negb (truthy_entry file)
         then ret (json (MessageOnly "Image file is required") 400)
         else
           tags <- lift_completion
                     (JSON_parse (engine env) (ToString_entry (FormData_get "tags" formData))) ;;
           agenda <- lift_completion
                       (JSON_parse (engine env) (ToString_entry (FormData_get "agenda" formData))) ;;
           pending <- lift_completion (arrayBuffer file) ;;
           buffer <- await pending ;;
           p <- upload {| resource_type := "image"; folder := "DevEvent" |} buffer ;;
           uploadResult <- await p ;;
           url <- lift_completion (get_secure_url uploadResult) ;;
           event <- lift_completion
                      (CreateDataPropertyOrThrow (engine env) event "image" (VString url)) ;;
           createdEvent <- Event_create (spread_with_tags_agenda event tags agenda) ;;
           ret (json (MessageEvent "Event created successfully" createdEvent) 201)
     end)
    (fun e =>
       console_error e ;;;
       ret (json (MessageError "Event Creation Failed" (error_text e)) 500)).

Definition GET : M (World C) NextResponse :=
  try_catch
    (lift_conn connectDB ;;;
     events <- Event_find_sort_createdAt (-1) ;;
     ret (json (MessageEvents "Events fetched successfully" events) 200))
    (fun e => ret (json (MessageCaught "Event fetching failed" e) 500)).

End Route.

(** ** Both variants of the connection module, side by side *)

Inductive Variant := AtModuleScope | AtCallTime.

Definition load_of (v : Variant) : option string -> option MongooseCache -> Completion Loaded :=
  match v with
  | AtModuleScope => ModuleScopeCheck.load
  | AtCallTime => CallTimeCheck.load
  end.

Definition connectDB_of (v : Variant) (mongoose_connect : list ConnectCall -> Promise Handle)
  : option string -> M ConnState (option Handle) :=
  match v with
  | AtModuleScope => ModuleScopeCheck.connectDB mongoose_connect
  | AtCallTime => CallTimeCheck.connectDB mongoose_connect
  end.

(** The call [connectDB] makes to the driver. *)
Definition the_connect_call (uri : option string) : ConnectCall :=
  {| call_uri := uri; call_options := {| bufferCommands := false |} |}.

(** Whether a call that finds no handle and no pending attempt gets as far as
    calling the driver. *)
Definition starts_attempt (v : Variant) (uri : option string) : bool :=
  match v with
  | AtModuleScope => true
  | AtCallTime => negb (not_uri uri)
  end.

(** [attempt_awaited v drv uri s p]: a call of [connectDB] in state [s] awaits
    [p], the attempt already pending or the one the call starts itself. *)
Definition attempt_awaited (v : Variant) (mongoose_connect : list ConnectCall -> Promise Handle)
    (uri : option string) (s : ConnState) (p : Promise Handle) : Prop :=
  conn (cached s) = None /\
  (promise (cached s) = Some p \/
   (promise (cached s) = None /\ starts_attempt v uri = true /\
    p = mongoose_connect (connect_calls s ++ [the_connect_call uri]))).

(** [n] calls in a row: their results, in order, and the final state. *)
Fixpoint call_times {S A} (n : nat) (m : M S A) (s : S) : list (Completion A) * S :=
  match n with
  | O => ([], s)
  | S n' =>
      let (r, s1) := m s in
      let (rs, s2) := call_times n' m s1 in
      (r :: rs, s2)
  end.

Definition empty_cache : MongooseCache := {| conn := None; promise := None |}.

(** The check of the URI is lazy in a variant when evaluating the module does
    not fail, whatever the environment holds. *)
Definition load_never_fails (v : Variant) : Prop :=
  forall env_uri global_mongoose, exists m, load_of v env_uri global_mongoose = Normal m.

(** Acquiring a connection in a fresh process: the module is evaluated with
    [global.mongoose] unset, then [connectDB] is called for the first time.
    The result comes with the connection attempts made. *)
Definition first_acquire (v : Variant) (mongoose_connect : list ConnectCall -> Promise Handle)
    (env_uri : option string) : Completion (option Handle) * list ConnectCall :=
  match load_of v env_uri None with
  | Throw e => (Throw e, [])
  | Normal m =>
      let (r, s) := connectDB_of v mongoose_connect (MONGODB_URI m)
                      (mkConn (loaded_cache m) []) in
      (r, connect_calls s)
  end.

(** ** Notions used in the statements *)

(** The properties [Object.fromEntries] builds, written as a fold. *)
Definition form_properties (entries : FormData) (start : gmap string JsValue)
  : gmap string JsValue :=
  fold_left (fun m kv => <[fst kv := value_of_entry (snd kv)]> m) entries start.

(** [ordered direction a b]: [a] may come before [b] in that direction. *)
Definition ordered (direction : Z) (a b : StoredDoc) : Prop :=
  createdAt_before direction a b = true.

(** Newest first: every record is at least as recent as all that follow it. *)
Definition newest_first (events : list StoredDoc) : Prop :=
  StronglySorted (fun a b => createdAt b <= createdAt a) events.

(** The document [POST] hands to [Event.create]. *)
Definition event_document (form : FormData) (url : string) (tags agenda : JsValue)
  : gmap string JsValue :=
  <["agenda" := agenda]>
    (<["tags" := tags]> (<["image" := VString url]> (form_properties form ∅))).

(** The options of the one upload [POST] makes. *)
Definition image_upload (buffer : list Byte.byte) : UploadCall :=
  {| upload_options := {| resource_type := "image"; folder := "DevEvent" |};
     upload_buffer := buffer |}.

(** [e.message], for whatever was thrown. *)
Definition message_property (e : Thrown) : JsValue :=
  match e with
  | ErrorInstance _ message => VString message
  | NotAnError (VObject members) =>
      match find (fun kv => if decide (fst kv = "message") then true else false)
                 (rev members) with
      | Some kv => snd kv
      | None => VUndefined
      end
  | NotAnError _ => VUndefined
  end.

(** ** Sample inputs *)

Definition sample_uri : option string := Some "mongodb://db/dev".

(** A connection module whose driver always connects. *)
Definition sample_connectDB : M ConnState (option Handle) :=
  CallTimeCheck.connectDB (fun _ => Fulfills 7) sample_uri.

(** A process in which nothing has happened yet. *)
Definition fresh_world : World ConnState :=
  mkWorld (mkConn empty_cache []) [] [] [] [].

(** The connection state after the first successful [connectDB]. *)
Definition connected : ConnState :=
  mkConn (mkCache (Some 7) (Some (Fulfills 7))) [the_connect_call sample_uri].

Definition sample_file : File :=
  mkFile "poster.png" "image/png" [Byte.x89; Byte.x50; Byte.x4e; Byte.x47].

Definition sample_engine : Engine :=
  fun what =>
    match what with
    | JsonSyntax _ => "Unexpected token in JSON"
    | NotAFunction p => p +:+ " is not a function"
    | PropertyOfUndefined p => "Cannot read properties of undefined"
    | ObjectNotExtensible p => "Cannot add property, object is not extensible"
    end.

(** An environment in which the database accepts everything and the media
    service gives [answer]. *)
Definition sample_env (answer : option Thrown * option UploadResult) : Env :=
  {| engine := sample_engine;
     upload_stream := fun _ => answer;
     create_rejects := fun _ => None;
     find_rejects := None;
     now := 1000 |}.

Definition sample_result : UploadResult :=
  {| secure_url := "https://res.cloudinary.com/demo/image/upload/poster.png" |}.

Definition request (form : FormData) : NextRequest :=
  {| req_formData := Fulfills form |}.

Definition form_not_json : FormData :=
  [("title", EntryString "Rocq meetup");
   ("image", EntryFile sample_file);
   ("tags", EntryString "not json");
   ("agenda", EntryString "[]")].

Definition form_complete : FormData :=
  [("title", EntryString "Rocq meetup");
   ("image", EntryFile sample_file);
   ("tags", EntryString ("[" +:+ dq "a" +:+ "," +:+ dq "b" +:+ "]"));
   ("agenda", EntryString ("[" +:+ dq "x" +:+ "]"))].

Definition form_without_image : FormData :=
  [("title", EntryString "Rocq meetup");
   ("tags", EntryString "[]");
   ("agenda", EntryString "[]")].

Definition form_without_tags : FormData :=
  [("title", EntryString "Rocq meetup");
   ("image", EntryFile sample_file);
   ("agenda", EntryString ("[" +:+ dq "x" +:+ "]"))].

(** What the media service answers a rejected upload with: a plain object. *)
Definition api_error : Thrown :=
  NotAnError (VObject [("message", VString "Invalid API key"); ("http_code", VNumber "401")]).

(** A driver whose first attempt fails and whose later attempts succeed. *)
Definition flaky_driver (calls : list ConnectCall) : Promise Handle :=
  match calls with
  | [_] => Rejects (ErrorInstance "MongooseServerSelectionError" "connect ECONNREFUSED")
  | _ => Fulfills 7
  end.


(** ** Further notions *)

(** A cache that holds nothing, or a handle together with the fulfilled attempt
    that produced it. *)
Definition settled_cache (c : MongooseCache) : Prop :=
  c = empty_cache \/ exists h, c = mkCache (Some h) (Some (Fulfills h)).

(** The last value of a name in a form, the one [Object.fromEntries] keeps. *)
Fixpoint FormData_get_last (name : string) (entries : FormData) : option FormDataEntryValue :=
  match entries with
  | [] => None
  | (k, v) :: rest =>
      match FormData_get_last name rest with
      | Some v' => Some v'
      | None => if decide (k = name) then Some v else None
      end
  end.

(** A driver that never connects. *)
Definition refusing_driver (calls : list ConnectCall) : Promise Handle :=
  Rejects (ErrorInstance "MongooseServerSelectionError" "connect ECONNREFUSED").

(** A form whose [image] is a text value. *)
Definition form_text_image : FormData :=
  [("title", EntryString "Rocq meetup");
   ("image", EntryString "poster.png");
   ("tags", EntryString "[]");
   ("agenda", EntryString "[]")].

(** A form in which names repeat. *)
Definition form_repeated : FormData :=
  [("title", EntryString "Rocq meetup");
   ("image", EntryFile sample_file);
   ("tags", EntryString ("[" +:+ dq "a" +:+ "]"));
   ("title", EntryString "Rocq meetup, second edition");
   ("tags", EntryString ("[" +:+ dq "b" +:+ "]"));
   ("agenda", EntryString "[]")].

(** An environment like [sample_env] in which the database rejects inserts. *)
Definition rejecting_env (answer : option Thrown * option UploadResult) : Env :=
  {| engine := sample_engine;
     upload_stream := fun _ => answer;
     create_rejects := fun _ => Some (ErrorInstance "ValidationError" "Event validation failed");
     find_rejects := None;
     now := 1000 |}.

(** The event [POST] stores from [form] in [sample_env], and the world it
    leaves when it starts from [fresh_world]. *)
Definition sample_event (form : FormData) (tags agenda : JsValue) : StoredDoc :=
  {| doc_fields := event_document form (secure_url sample_result) tags agenda;
     createdAt := 1000 |}.

Definition world_after_POST (form : FormData) (tags agenda : JsValue) : World ConnState :=
  mkWorld connected [image_upload (file_bytes sample_file)]
    [doc_fields (sample_event form tags agenda)] [sample_event form tags agenda] [].

(** * [JSON.parse] on the texts of interest *)

Example json_not_json : json_value "not json" = None.
Proof. vm_compute. reflexivity. Qed.

Example json_null : json_value "null" = Some VNull.
Proof. vm_compute. reflexivity. Qed.

Example json_tags :
  json_value ("[" +:+ dq "a" +:+ "," +:+ dq "b" +:+ "]")
  = Some (VArray [VString "a"; VString "b"]).
Proof. vm_compute. reflexivity. Qed.

Example json_nested :
  json_value ("{" +:+ dq "k" +:+ ": [1, -2.5e3, true, {}], " +:+ dq "sA\n" +:+ " :null }")
  = Some (VObject [("k", VArray [VNumber "1"; VNumber "-2.5e3"; VBool true; VObject []]);
                   ("sA" +:+ String (ascii_of_nat 10) "", VNull)]).
Proof. vm_compute. reflexivity. Qed.

Example json_object_File : json_value "[object File]" = None.
Proof. vm_compute. reflexivity. Qed.

Example json_trailing : json_value "[1,]" = None.
Proof. vm_compute. reflexivity. Qed.

(** * Properties of the connection cache *)

Ltac run :=
  unfold connectDB_of, ModuleScopeCheck.connectDB, CallTimeCheck.connectDB,
    await_and_cache, await_cached, await, connect, set_promise, set_conn,
    try_catch, bind, get, modify, ret, throw; simpl.

Section ConnectionFacts.

Variable mongoose_connect : list ConnectCall -> Promise Handle.
Variable v : Variant.
Variable uri : option string.

Local Abbreviation connectDB := (connectDB_of v mongoose_connect uri).

(** A cached handle is returned at once and nothing changes. *)
Lemma connectDB_cached s h :
  conn (cached s) = Some h -> connectDB s = (Normal (Some h), s).
Proof.
  intros Hc. destruct v; run; rewrite Hc; reflexivity.
Qed.

(** A call that completes normally returns a handle and leaves it cached. *)
Lemma connectDB_normal s r s1 :
  connectDB s = (Normal r, s1) -> exists h, r = Some h /\ conn (cached s1) = Some h.
Proof.
  destruct s as [[c p] calls]. destruct v; run;
    destruct c as [h|]; simpl;
    try (intros [= <- <-]; eexists; split; reflexivity).
  - destruct p as [[h|e]|]; simpl.
    + intros [= <- <-]. eexists; split; reflexivity.
    + discriminate.
    + destruct (mongoose_connect _) as [h|e]; simpl.
      * intros [= <- <-]. eexists; split; reflexivity.
      * discriminate.
  - destruct p as [[h|e]|]; simpl.
    + intros [= <- <-]. eexists; split; reflexivity.
    + discriminate.
    + destruct (not_uri uri); simpl; [discriminate|].
      destruct (mongoose_connect _) as [h|e]; simpl.
      * intros [= <- <-]. eexists; split; reflexivity.
      * discriminate.
Qed.

Lemma call_times_cached s h n :
  conn (cached s) = Some h ->
  call_times n connectDB s = (repeat (Normal (Some h)) n, s).
Proof.
  intros Hc. induction n as [|n IH]; simpl.
  - reflexivity.
  - rewrite (connectDB_cached s h Hc), IH. reflexivity.
Qed.

End ConnectionFacts.

(** With a URI in place the two variants of [connectDB] are the same function. *)
Lemma connectDB_variants_agree
    (mongoose_connect : list ConnectCall -> Promise Handle) (uri : option string)
    (s : ConnState) :
  not_uri uri = false ->
  ModuleScopeCheck.connectDB mongoose_connect uri s
  = CallTimeCheck.connectDB mongoose_connect uri s.
Proof.
  intros Huri. run. rewrite Huri. reflexivity.
Qed.

(** C3. Once a call of [connectDB] has succeeded, it returned a handle, and
    every later call returns that same handle and leaves the state as it is: in
    particular the list of connection attempts does not grow. *)
Theorem connectDB_idempotent_after_success
    (mongoose_connect : list ConnectCall -> Promise Handle) (v : Variant)
    (uri : option string) (s s1 : ConnState) (r : option Handle) :
  connectDB_of v mongoose_connect uri s = (Normal r, s1) ->
  exists h, r = Some h /\
    forall n, call_times n (connectDB_of v mongoose_connect uri) s1
              = (repeat (Normal (Some h)) n, s1).
Proof.
  intros Hrun.
  destruct (connectDB_normal _ _ _ _ _ _ Hrun) as (h & -> & Hc).
  exists h. split; [reflexivity|].
  intros n. apply call_times_cached, Hc.
Qed.

Lemma connectDB_idempotent_after_success_witness :
  exists h, Some 7 = Some h /\
    forall n,
      call_times n (connectDB_of AtCallTime (fun _ => Fulfills 7) (Some "mongodb://db/dev"))
        (mkConn (mkCache (Some 7) (Some (Fulfills 7)))
                [the_connect_call (Some "mongodb://db/dev")])
      = (repeat (Normal (Some h)) n,
         mkConn (mkCache (Some 7) (Some (Fulfills 7)))
                [the_connect_call (Some "mongodb://db/dev")]).
Proof.
  apply (connectDB_idempotent_after_success (fun _ => Fulfills 7) AtCallTime
           (Some "mongodb://db/dev") (mkConn empty_cache [])).
  reflexivity.
Defined.

(** From an empty cache, a call that reaches the driver starts one attempt and
    ends as that attempt does. *)
Lemma connectDB_fresh_attempt
    (mongoose_connect : list ConnectCall -> Promise Handle) (v : Variant)
    (uri : option string) (calls : list ConnectCall) :
  starts_attempt v uri = true ->
  connectDB_of v mongoose_connect uri (mkConn empty_cache calls) =
    match mongoose_connect (calls ++ [the_connect_call uri]) with
    | Fulfills h =>
        (Normal (Some h),
         mkConn (mkCache (Some h) (Some (Fulfills h))) (calls ++ [the_connect_call uri]))
    | Rejects e' => (Throw e', mkConn empty_cache (calls ++ [the_connect_call uri]))
    end.
Proof.
  intros Hstart. unfold the_connect_call.
  destruct v; run.
  - destruct (mongoose_connect _); reflexivity.
  - simpl in Hstart. destruct (not_uri uri); [discriminate|]. simpl.
    destruct (mongoose_connect _); reflexivity.
Qed.

(** C8. When the attempt a call awaits is rejected, the call throws that
    rejection and leaves no pending attempt behind; the next call then starts an
    attempt of its own and its outcome is that of the new attempt. *)
Theorem connectDB_clears_failed_attempt
    (mongoose_connect : list ConnectCall -> Promise Handle) (v : Variant)
    (uri : option string) (s : ConnState) (e : Thrown) :
  attempt_awaited v mongoose_connect uri s (Rejects e) ->
  exists s1,
    connectDB_of v mongoose_connect uri s = (Throw e, s1) /\
    cached s1 = empty_cache /\
    (starts_attempt v uri = true ->
     let calls := connect_calls s1 ++ [the_connect_call uri] in
     connectDB_of v mongoose_connect uri s1 =
       match mongoose_connect calls with
       | Fulfills h => (Normal (Some h), mkConn (mkCache (Some h) (Some (Fulfills h))) calls)
       | Rejects e' => (Throw e', mkConn empty_cache calls)
       end).
Proof.
  intros [Hconn Hawait].
  destruct s as [[c p] calls]; simpl in *; subst c.
  pose proof (connectDB_fresh_attempt mongoose_connect v uri) as Hnext.
  destruct Hawait as [-> | (-> & Hstart & Hdrv)].
  - exists (mkConn empty_cache calls). split; [|split].
    + destruct v; run; reflexivity.
    + reflexivity.
    + intros Hstart. simpl. apply Hnext, Hstart.
  - exists (mkConn empty_cache (calls ++ [the_connect_call uri])). split; [|split].
    + unfold the_connect_call in Hdrv. destruct v; run.
      * rewrite <- Hdrv. reflexivity.
      * simpl in Hstart. destruct (not_uri uri); [discriminate|]. simpl.
        rewrite <- Hdrv. reflexivity.
    + reflexivity.
    + intros _. simpl. apply Hnext, Hstart.
Qed.

Lemma connectDB_clears_failed_attempt_witness :
  exists s1,
    connectDB_of AtCallTime flaky_driver sample_uri (mkConn empty_cache [])
    = (Throw (ErrorInstance "MongooseServerSelectionError" "connect ECONNREFUSED"), s1) /\
    cached s1 = empty_cache /\
    connectDB_of AtCallTime flaky_driver sample_uri s1
    = (Normal (Some 7),
       mkConn (mkCache (Some 7) (Some (Fulfills 7)))
              [the_connect_call sample_uri; the_connect_call sample_uri]).
Proof.
  destruct (connectDB_clears_failed_attempt flaky_driver AtCallTime sample_uri
              (mkConn empty_cache [])
              (ErrorInstance "MongooseServerSelectionError" "connect ECONNREFUSED"))
    as (s1 & Hrun & Hcache & Hnext).
  { split; [reflexivity|]. right. split; [reflexivity|]. split; reflexivity. }
  exists s1. split; [exact Hrun|]. split; [exact Hcache|].
  rewrite (Hnext eq_refl).
  vm_compute in Hrun. injection Hrun as <-. reflexivity.
Defined.

(** C2, as the code has it.  With a missing URI, acquiring a connection in a
    fresh process fails with the configuration error in both variants, and no
    connection attempt is made.  In the variant that checks inside
    [connectDB], evaluating the module never fails, and a call that finds
    neither a handle nor a pending attempt throws the error and leaves the
    state, hence the list of connection attempts, untouched; in the variant
    that checks at module scope, evaluating the module throws that error, so
    [connectDB] is never reached. *)
Theorem missing_uri_by_variant
    (mongoose_connect : list ConnectCall -> Promise Handle)
    (uri : option string) (global_mongoose : option MongooseCache) (s : ConnState) :
  not_uri uri = true ->
  cached s = empty_cache ->
  (forall v, first_acquire v mongoose_connect uri = (Throw missing_uri_error, [])) /\
  load_never_fails AtCallTime /\
  connectDB_of AtCallTime mongoose_connect uri s = (Throw missing_uri_error, s) /\
  load_of AtModuleScope uri global_mongoose = Throw missing_uri_error.
Proof.
  intros Hu Hc. split; [|split; [|split]].
  - intros [|]; unfold first_acquire; simpl.
    + unfold ModuleScopeCheck.load. rewrite Hu. reflexivity.
    + run. rewrite Hu. reflexivity.
  - intros u g. eexists. reflexivity.
  - destruct s as [c calls]. simpl in Hc. subst c. run. rewrite Hu. reflexivity.
  - simpl. unfold ModuleScopeCheck.load. rewrite Hu. reflexivity.
Qed.

Lemma missing_uri_by_variant_witness :
  (forall v, first_acquire v (fun _ => Fulfills 7) None = (Throw missing_uri_error, [])) /\
  load_never_fails AtCallTime /\
  connectDB_of AtCallTime (fun _ => Fulfills 7) None (mkConn (initial_cache None) [])
    = (Throw missing_uri_error, mkConn (initial_cache None) []) /\
  load_of AtModuleScope None None = Throw missing_uri_error.
Proof.
  apply (missing_uri_by_variant (fun _ => Fulfills 7) None None
           (mkConn (initial_cache None) [])); reflexivity.
Defined.

(** C2 as stated fails for the variant that checks at module scope: there the
    check fires when the module is evaluated. *)
Lemma module_scope_check_fires_at_load :
  load_of AtModuleScope None None = Throw missing_uri_error /\
  ~ load_never_fails AtModuleScope.
Proof.
  split; [reflexivity|].
  intros H. destruct (H None None) as [m Hm]. discriminate Hm.
Qed.

(** * Properties of the route handlers *)

Lemma CreateDataPropertyOrThrow_extensible engine o k v :
  extensible o = true ->
  CreateDataPropertyOrThrow engine o k v
  = Normal {| properties := <[k := v]> (properties o); extensible := true |}.
Proof.
  intros Hext. unfold CreateDataPropertyOrThrow. rewrite Hext.
  destruct (properties o !! k); reflexivity.
Qed.

Lemma AddEntriesFromIterable_extensible engine entries :
  forall o, extensible o = true ->
  AddEntriesFromIterable engine o entries
  = Normal {| properties := form_properties entries (properties o); extensible := true |}.
Proof.
  induction entries as [|[k v] rest IH]; intros o Hext; simpl.
  - destruct o as [props ext]. simpl in *. subst ext. reflexivity.
  - rewrite CreateDataPropertyOrThrow_extensible by exact Hext.
    rewrite IH by reflexivity. reflexivity.
Qed.

Lemma Object_fromEntries_normal engine entries :
  Object_fromEntries engine entries
  = Normal {| properties := form_properties entries ∅; extensible := true |}.
Proof.
  unfold Object_fromEntries. apply AddEntriesFromIterable_extensible. reflexivity.
Qed.

Ltac case_step :=
  match goal with
  | |- context [match ?x with _ => _ end] =>
      lazymatch x with
      | context [match _ with _ => _ end] => fail
      | _ => destruct x eqn:?
      end
  end; simpl in *.

Ltac run_route :=
  unfold POST, GET, Event_create, Event_find_sort_createdAt, upload, console_error,
    lift_conn, lift_completion, try_catch, bind, await, get, modify, ret, throw.

(** ** Ordering of the listed events *)

Lemma ordered_total direction a b :
  createdAt_before direction a b = false -> ordered direction b a.
Proof.
  unfold ordered, createdAt_before.
  destruct (direction <? 0)%Z; intros H;
    apply Nat.leb_gt in H; apply Nat.leb_le; lia.
Qed.

Lemma ordered_trans direction a b c :
  ordered direction a b -> ordered direction b c -> ordered direction a c.
Proof.
  unfold ordered, createdAt_before.
  destruct (direction <? 0)%Z; intros H1 H2;
    apply Nat.leb_le in H1; apply Nat.leb_le in H2; apply Nat.leb_le; lia.
Qed.

Lemma insert_sorted_perm direction d l :
  Permutation (insert_sorted direction d l) (d :: l).
Proof.
  induction l as [|x rest IH]; simpl.
  - reflexivity.
  - destruct (createdAt_before direction d x).
    + reflexivity.
    + rewrite IH. apply perm_swap.
Qed.

Lemma sort_createdAt_perm direction l :
  Permutation (sort_createdAt direction l) l.
Proof.
  induction l as [|d rest IH]; simpl.
  - reflexivity.
  - rewrite insert_sorted_perm. apply perm_skip, IH.
Qed.

Lemma insert_sorted_sorted direction d l :
  StronglySorted (ordered direction) l ->
  StronglySorted (ordered direction) (insert_sorted direction d l).
Proof.
  induction 1 as [|x rest Hrest IH Hx]; simpl.
  - repeat constructor.
  - destruct (createdAt_before direction d x) eqn:Hdx.
    + constructor.
      * constructor; assumption.
      * constructor; [exact Hdx|].
        eapply Forall_impl; [exact Hx|].
        intros y Hxy. eapply ordered_trans; [exact Hdx|exact Hxy].
    + constructor; [exact IH|].
      rewrite (insert_sorted_perm direction d rest).
      constructor; [apply ordered_total, Hdx|exact Hx].
Qed.

Lemma sort_createdAt_sorted direction l :
  StronglySorted (ordered direction) (sort_createdAt direction l).
Proof.
  induction l as [|d rest IH]; simpl.
  - constructor.
  - apply insert_sorted_sorted, IH.
Qed.

Lemma sort_descending_newest_first l :
  newest_first (sort_createdAt (-1) l).
Proof.
  unfold newest_first.
  pose proof (sort_createdAt_sorted (-1) l) as Hsorted.
  induction Hsorted as [|x rest Hrest IH Hx]; constructor.
  - exact IH.
  - eapply Forall_impl; [exact Hx|].
    intros y Hxy. unfold ordered, createdAt_before in Hxy. simpl in Hxy.
    apply Nat.leb_le, Hxy.
Qed.

(** ** The handlers *)

Section RouteFacts.

Context {C R : Type}.
Variable connectDB : M C R.
Variable env : Env.

(** C9. [Object.fromEntries] over the entries of a form completes normally for
    every form, and no run of [POST] ends in the response of the inner
    [catch]: no response at all carries the message "Invalid JSON data
    format". *)
Theorem POST_never_invalid_json (req : NextRequest) (w : World C) :
  (forall form, exists event, Object_fromEntries (engine env) form = Normal event) /\
  (forall response w',
     POST connectDB env req w = (Normal response, w') ->
     body_message (body response) <> "Invalid JSON data format").
Proof.
  split.
  - intros form. eexists. apply Object_fromEntries_normal.
  - intros response w'. run_route.
    destruct (connectDB (conn_state w)) as [[r|e] c1]; simpl.
    2:{ intros [= <- <-]. discriminate. }
    destruct (req_formData req) as [form|e]; simpl.
    2:{ intros [= <- <-]. discriminate. }
    rewrite Object_fromEntries_normal.
    destruct (truthy_entry (FormData_get "image" form)); simpl.
    2:{ intros [= <- <-]. discriminate. }
    repeat case_step; intros [= <- <-]; discriminate.
Qed.

(** X21. When the connection is acquired and the form has no entry named
    [image], [POST] answers 400 "Image file is required"; nothing is uploaded,
    nothing is handed to the database and nothing is logged. *)
Theorem POST_without_image (req : NextRequest) (w : World C) (r : R) (c1 : C)
    (form : FormData) :
  connectDB (conn_state w) = (Normal r, c1) ->
  req_formData req = Fulfills form ->
  FormData_get "image" form = None ->
  POST connectDB env req w
  = (Normal (json (MessageOnly "Image file is required") 400),
     mkWorld c1 (uploads w) (creates w) (collection w) (console w)).
Proof.
  intros Hconn Hform Himage. run_route.
  rewrite Hconn, Hform. simpl.
  rewrite Object_fromEntries_normal, Himage. reflexivity.
Qed.

(** C6. With the connection acquired, an [image] file, [tags] and [agenda]
    texts that denote the arrays ["a","b"] and ["x"], an upload answered with a
    result and an insert the database accepts, [POST] answers 201 with the
    created event, whose [image] is the [secure_url] of the upload and whose
    [tags] and [agenda] are those arrays. *)
Theorem POST_creates_event (req : NextRequest) (w : World C) (r : R) (c1 : C)
    (form : FormData) (f : File) (tags_text agenda_text : string) (res : UploadResult) :
  connectDB (conn_state w) = (Normal r, c1) ->
  req_formData req = Fulfills form ->
  FormData_get "image" form = Some (EntryFile f) ->
  FormData_get "tags" form = Some (EntryString tags_text) ->
  json_value tags_text = Some (VArray [VString "a"; VString "b"]) ->
  FormData_get "agenda" form = Some (EntryString agenda_text) ->
  json_value agenda_text = Some (VArray [VString "x"]) ->
  upload_stream env (image_upload (file_bytes f)) = (None, Some res) ->
  create_rejects env
    (event_document form (secure_url res)
       (VArray [VString "a"; VString "b"]) (VArray [VString "x"])) = None ->
  exists event w',
    POST connectDB env req w
    = (Normal (json (MessageEvent "Event created successfully" event) 201), w') /\
    doc_fields event !! "image" = Some (VString (secure_url res)) /\
    doc_fields event !! "tags" = Some (VArray [VString "a"; VString "b"]) /\
    doc_fields event !! "agenda" = Some (VArray [VString "x"]).
Proof.
  intros Hconn Hform Himage Htags Htv Hagenda Hav Hup Hcreate.
  unfold image_upload in Hup. unfold event_document in Hcreate.
  run_route. rewrite Hconn, Hform. simpl.
  rewrite Object_fromEntries_normal, Himage, Htags, Hagenda. simpl.
  unfold JSON_parse. rewrite Htv, Hav. simpl.
  rewrite Hup. simpl.
  rewrite CreateDataPropertyOrThrow_extensible by reflexivity.
  unfold spread_with_tags_agenda. simpl. rewrite Hcreate.
  eexists. eexists. split; [reflexivity|]. simpl.
  split; [|split].
  - rewrite !lookup_insert_ne by discriminate. apply lookup_insert_eq.
  - rewrite lookup_insert_ne by discriminate. apply lookup_insert_eq.
  - apply lookup_insert_eq.
Qed.

(** C4, as the code has it.  In every run of [POST] that makes an upload which
    fails, that is, which the media service answers with a truthy error [e],
    the response is 500 with message "Event Creation Failed" and, as its
    error, the message of [e] when [e] is an [Error] and "Unknown" otherwise;
    nothing is handed to the database and the collection is unchanged. *)
Theorem POST_upload_failure (req : NextRequest) (w w' : World C)
    (result : Completion NextResponse) (call : UploadCall) (e : Thrown) :
  POST connectDB env req w = (result, w') ->
  uploads w' = uploads w ++ [call] ->
  fst (upload_stream env call) = Some e ->
  truthy_thrown e = true ->
  result = Normal (json (MessageError "Event Creation Failed"
                           (match e with
                            | ErrorInstance _ message => message
                            | NotAnError _ => "Unknown"
                            end)) 500) /\
  creates w' = creates w /\
  collection w' = collection w.
Proof.
  assert (Hnone : forall (l : list UploadCall) c, l = l ++ [c] -> False).
  { intros l c H. apply (f_equal length) in H. rewrite length_app in H. simpl in H. lia. }
  intros Hrun Hup Herr Htruthy. revert Hrun. run_route.
  destruct (connectDB (conn_state w)) as [[r|e0] c1]; simpl.
  2:{ intros [= <- <-]. simpl in Hup. destruct (Hnone _ _ Hup). }
  destruct (req_formData req) as [form|e0]; simpl.
  2:{ intros [= <- <-]. simpl in Hup. destruct (Hnone _ _ Hup). }
  rewrite Object_fromEntries_normal.
  destruct (truthy_entry (FormData_get "image" form)); simpl.
  2:{ intros [= <- <-]. simpl in Hup. destruct (Hnone _ _ Hup). }
  destruct (JSON_parse _ (ToString_entry (FormData_get "tags" form))) as [tags|e0]; simpl.
  2:{ intros [= <- <-]. simpl in Hup. destruct (Hnone _ _ Hup). }
  destruct (JSON_parse _ (ToString_entry (FormData_get "agenda" form))) as [agenda|e0]; simpl.
  2:{ intros [= <- <-]. simpl in Hup. destruct (Hnone _ _ Hup). }
  destruct (arrayBuffer env (FormData_get "image" form)) as [[buffer|e0]|e0]; simpl.
  2,3:intros [= <- <-]; simpl in Hup; destruct (Hnone _ _ Hup).
  set (made := {| upload_options := _; upload_buffer := buffer |}).
  destruct (upload_stream env made) as [[error|] results] eqn:Hstream; simpl.
  - destruct (truthy_thrown error) eqn:Herror; simpl.
    + intros [= <- <-]. simpl in Hup.
      apply app_inv_head in Hup. injection Hup as <-.
      rewrite Hstream in Herr. simpl in Herr. injection Herr as ->.
      repeat split; reflexivity.
    + intros Hrun.
      assert (Hsame : call = made).
      { revert Hrun. repeat case_step; intros [= <- <-]; simpl in Hup;
          apply app_inv_head in Hup; injection Hup as <-; reflexivity. }
      subst call. rewrite Hstream in Herr. simpl in Herr. injection Herr as ->.
      rewrite Htruthy in Herror. discriminate Herror.
  - intros Hrun.
    assert (Hsame : call = made).
    { revert Hrun. repeat case_step; intros [= <- <-]; simpl in Hup;
        apply app_inv_head in Hup; injection Hup as <-; reflexivity. }
    subst call. rewrite Hstream in Herr. discriminate Herr.
Qed.

(** C10. Take a form with an [image] file in which [tags] or [agenda] is
    missing.  [POST] never answers 400, whatever the collaborators do;
    [JSON.parse] turns the missing value into [null]; and when the other
    fields parse, the upload is answered with a result and the database
    accepts the insert, the answer is 201 and the event that is stored has
    [null] in the missing field. *)
Theorem POST_missing_field_is_null (req : NextRequest) (w : World C)
    (form : FormData) (f : File) (name : string) :
  req_formData req = Fulfills form ->
  FormData_get "image" form = Some (EntryFile f) ->
  name = "tags" \/ name = "agenda" ->
  FormData_get name form = None ->
  (forall response w', POST connectDB env req w = (Normal response, w') ->
     status response <> 400%Z) /\
  JSON_parse (engine env) (ToString_entry (FormData_get name form)) = Normal VNull /\
  (forall r c1 tags agenda res,
     connectDB (conn_state w) = (Normal r, c1) ->
     json_value (ToString_entry (FormData_get "tags" form)) = Some tags ->
     json_value (ToString_entry (FormData_get "agenda" form)) = Some agenda ->
     upload_stream env (image_upload (file_bytes f)) = (None, Some res) ->
     create_rejects env (event_document form (secure_url res) tags agenda) = None ->
     exists event w',
       POST connectDB env req w
       = (Normal (json (MessageEvent "Event created successfully" event) 201), w') /\
       collection w' = collection w ++ [event] /\
       doc_fields event !! name = Some VNull).
Proof.
  intros Hform Himage Hname Hmissing. split; [|split].
  - intros response w'. run_route. rewrite Hform.
    destruct (connectDB (conn_state w)) as [[r|e] c1]; simpl.
    2:{ intros [= <- <-]. discriminate. }
    rewrite Object_fromEntries_normal, Himage. simpl.
    repeat case_step; intros [= <- <-]; discriminate.
  - rewrite Hmissing. reflexivity.
  - intros r c1 tags agenda res Hconn Htags Hagenda Hup Hcreate.
    unfold image_upload in Hup. unfold event_document in Hcreate.
    run_route. rewrite Hconn, Hform. simpl.
    rewrite Object_fromEntries_normal, Himage. simpl.
    unfold JSON_parse. rewrite Htags, Hagenda. simpl.
    rewrite Hup. simpl.
    rewrite CreateDataPropertyOrThrow_extensible by reflexivity.
    unfold spread_with_tags_agenda. simpl. rewrite Hcreate.
    eexists. eexists. split; [reflexivity|]. simpl. split; [reflexivity|].
    destruct Hname as [-> | ->].
    + rewrite Hmissing in Htags. injection Htags as <-.
      rewrite lookup_insert_ne by discriminate. apply lookup_insert_eq.
    + rewrite Hmissing in Hagenda. injection Hagenda as <-.
      apply lookup_insert_eq.
Qed.

(** C7. [GET] first acquires the connection and then queries the collection.
    When both succeed the answer is 200 with all records of the collection,
    newest first; when either fails the answer is 500 with the caught value as
    its error.  The collection is never changed. *)
Theorem GET_lists_newest_first (w : World C) :
  match connectDB (conn_state w) with
  | (Normal _, c1) =>
      let w1 := mkWorld c1 (uploads w) (creates w) (collection w) (console w) in
      match find_rejects env with
      | None =>
          exists events,
            GET connectDB env w
            = (Normal (json (MessageEvents "Events fetched successfully" events) 200), w1) /\
            Permutation events (collection w) /\
            newest_first events
      | Some e =>
          GET connectDB env w
          = (Normal (json (MessageCaught "Event fetching failed" e) 500), w1)
      end
  | (Throw e, c1) =>
      GET connectDB env w
      = (Normal (json (MessageCaught "Event fetching failed" e) 500),
         mkWorld c1 (uploads w) (creates w) (collection w) (console w))
  end.
Proof.
  run_route.
  destruct (connectDB (conn_state w)) as [[r|e] c1]; simpl; [|reflexivity].
  destruct (find_rejects env) as [e|]; simpl; [reflexivity|].
  eexists. split; [reflexivity|]. split.
  - apply sort_createdAt_perm.
  - apply sort_descending_newest_first.
Qed.

End RouteFacts.

(** C1 on the code: with an [image] file and [tags] set to the text
    [not json], [POST] answers 500 "Event Creation Failed" with the message of
    the syntax error, not 400 "Invalid JSON data format". *)
Theorem POST_not_json_answers_500 (env : Env) :
  POST sample_connectDB env (request form_not_json) fresh_world
  = (Normal (json (MessageError "Event Creation Failed"
                     (engine env (JsonSyntax "not json"))) 500),
     mkWorld connected [] [] []
       [ErrorInstance "SyntaxError" (engine env (JsonSyntax "not json"))]).
Proof.
  run_route. simpl. rewrite Object_fromEntries_normal. reflexivity.
Qed.

(** C5 on the code: a form whose [image] is a text value has no file field
    named [image], yet [POST] does not answer 400 "Image file is required".
    The guard [if (!file)] lets the non-empty text through,
    [file.arrayBuffer()] throws, and the answer is 500 "Event Creation Failed"
    with the message of that [TypeError].  Nothing is uploaded or inserted. *)
Theorem POST_text_image_is_not_rejected (env : Env) :
  (forall f, ~ In ("image", EntryFile f) form_text_image) /\
  POST sample_connectDB env (request form_text_image) fresh_world
  = (Normal (json (MessageError "Event Creation Failed"
                     (engine env (NotAFunction "arrayBuffer"))) 500),
     mkWorld connected [] [] []
       [TypeError (engine env) (NotAFunction "arrayBuffer")]).
Proof.
  split.
  - intros f Hin. simpl in Hin.
    repeat (destruct Hin as [Hin | Hin]; [discriminate Hin|]). exact Hin.
  - run_route. simpl. rewrite Object_fromEntries_normal. reflexivity.
Qed.

Lemma POST_without_image_witness :
  POST sample_connectDB (sample_env (None, Some sample_result))
    (request form_without_image) fresh_world
  = (Normal (json (MessageOnly "Image file is required") 400),
     mkWorld connected [] [] [] []).
Proof.
  apply (POST_without_image sample_connectDB (sample_env (None, Some sample_result))
           (request form_without_image) fresh_world (Some 7) connected form_without_image);
    reflexivity.
Defined.

Lemma POST_creates_event_witness :
  exists event w',
    POST sample_connectDB (sample_env (None, Some sample_result))
      (request form_complete) fresh_world
    = (Normal (json (MessageEvent "Event created successfully" event) 201), w') /\
    doc_fields event !! "image" = Some (VString (secure_url sample_result)) /\
    doc_fields event !! "tags" = Some (VArray [VString "a"; VString "b"]) /\
    doc_fields event !! "agenda" = Some (VArray [VString "x"]).
Proof.
  apply (POST_creates_event sample_connectDB (sample_env (None, Some sample_result))
           (request form_complete) fresh_world (Some 7) connected form_complete sample_file
           ("[" +:+ dq "a" +:+ "," +:+ dq "b" +:+ "]") ("[" +:+ dq "x" +:+ "]")
           sample_result);
    try reflexivity; vm_compute; reflexivity.
Defined.

Lemma POST_upload_failure_witness :
  let run := POST sample_connectDB
               (sample_env (Some (ErrorInstance "Error" "Request Timeout"), None))
               (request form_complete) fresh_world in
  fst run = Normal (json (MessageError "Event Creation Failed" "Request Timeout") 500) /\
  creates (snd run) = [] /\
  collection (snd run) = [].
Proof.
  intros run.
  apply (POST_upload_failure sample_connectDB
           (sample_env (Some (ErrorInstance "Error" "Request Timeout"), None))
           (request form_complete) fresh_world (snd run) (fst run)
           (image_upload (file_bytes sample_file))
           (ErrorInstance "Error" "Request Timeout")).
  - subst run. apply surjective_pairing.
  - vm_compute. reflexivity.
  - reflexivity.
  - reflexivity.
Defined.

(** C4 as stated fails when the media service rejects the upload with a value
    that is not an [Error]: the response carries "Unknown", not the message of
    that value. *)
Lemma POST_upload_failure_plain_object :
  fst (POST sample_connectDB (sample_env (Some api_error, None))
         (request form_complete) fresh_world)
  = Normal (json (MessageError "Event Creation Failed" "Unknown") 500) /\
  message_property api_error = VString "Invalid API key".
Proof. split; vm_compute; reflexivity. Qed.

Lemma POST_missing_field_is_null_witness :
  (forall response w',
     POST sample_connectDB (sample_env (None, Some sample_result))
       (request form_without_tags) fresh_world = (Normal response, w') ->
     status response <> 400%Z) /\
  JSON_parse sample_engine (ToString_entry (FormData_get "tags" form_without_tags))
  = Normal VNull /\
  exists event w',
    POST sample_connectDB (sample_env (None, Some sample_result))
      (request form_without_tags) fresh_world
    = (Normal (json (MessageEvent "Event created successfully" event) 201), w') /\
    collection w' = collection fresh_world ++ [event] /\
    doc_fields event !! "tags" = Some VNull.
Proof.
  destruct (POST_missing_field_is_null sample_connectDB
              (sample_env (None, Some sample_result))
              (request form_without_tags) fresh_world form_without_tags sample_file "tags")
    as (Hnot400 & Hnull & Hstored);
    [reflexivity | reflexivity | left; reflexivity | reflexivity |].
  split; [exact Hnot400|]. split; [exact Hnull|].
  apply (Hstored (Some 7) connected VNull (VArray [VString "x"]) sample_result);
    try reflexivity; vm_compute; reflexivity.
Defined.

(** * Further properties of the connection cache *)

(** X1. With no handle cached and an attempt pending, a call awaits that
    attempt and does not call the driver: when the attempt is fulfilled the
    call returns its handle and caches it.  The URI is not looked at. *)
Theorem connectDB_joins_pending_attempt
    (mongoose_connect : list ConnectCall -> Promise Handle) (v : Variant)
    (uri : option string) (s : ConnState) (h : Handle) :
  conn (cached s) = None ->
  promise (cached s) = Some (Fulfills h) ->
  connectDB_of v mongoose_connect uri s
  = (Normal (Some h), mkConn (mkCache (Some h) (Some (Fulfills h))) (connect_calls s)).
Proof.
  intros Hconn Hpending. destruct s as [[c p] calls]. simpl in *. subst c p.
  destruct v; run; reflexivity.
Qed.

Lemma connectDB_joins_pending_attempt_witness :
  connectDB_of AtCallTime refusing_driver None
    (mkConn (mkCache None (Some (Fulfills 7))) [the_connect_call sample_uri])
  = (Normal (Some 7),
     mkConn (mkCache (Some 7) (Some (Fulfills 7))) [the_connect_call sample_uri]).
Proof.
  apply (connectDB_joins_pending_attempt refusing_driver AtCallTime None
           (mkConn (mkCache None (Some (Fulfills 7))) [the_connect_call sample_uri]) 7);
    reflexivity.
Defined.

(** The driver's calls after one [connectDB]: unchanged, or one more. *)
Lemma connectDB_calls_grow
    (mongoose_connect : list ConnectCall -> Promise Handle) (v : Variant)
    (uri : option string) (s : ConnState) :
  connect_calls (snd (connectDB_of v mongoose_connect uri s)) = connect_calls s \/
  (cached s = empty_cache /\ starts_attempt v uri = true /\
   connect_calls (snd (connectDB_of v mongoose_connect uri s))
   = connect_calls s ++ [the_connect_call uri]).
Proof.
  destruct s as [[c p] calls]. simpl.
  destruct c as [h|].
  { left.
    rewrite (connectDB_cached mongoose_connect v uri (mkConn (mkCache (Some h) p) calls) h eq_refl).
    reflexivity. }
  destruct p as [[h|e]|].
  - left. destruct v; run; reflexivity.
  - left. destruct v; run; reflexivity.
  - destruct (starts_attempt v uri) eqn:Hstart.
    + right. split; [reflexivity|]. split; [reflexivity|].
      fold empty_cache. rewrite (connectDB_fresh_attempt mongoose_connect v uri calls Hstart).
      destruct (mongoose_connect _); reflexivity.
    + left. destruct v; [discriminate|]. simpl in Hstart.
      run. destruct (not_uri uri); [reflexivity|discriminate].
Qed.

(** X2. A call of [connectDB] calls the driver at most once, and only when it
    finds neither a handle nor a pending attempt (and, in the variant that
    checks at call time, a URI); the call it then makes carries the module's
    URI and [bufferCommands: false]. *)
Theorem connectDB_at_most_one_attempt
    (mongoose_connect : list ConnectCall -> Promise Handle) (v : Variant)
    (uri : option string) (s : ConnState) :
  let s' := snd (connectDB_of v mongoose_connect uri s) in
  connect_calls s' = connect_calls s \/
  (cached s = empty_cache /\ starts_attempt v uri = true /\
   connect_calls s' = connect_calls s ++ [the_connect_call uri]).
Proof.
  exact (connectDB_calls_grow mongoose_connect v uri s).
Qed.

(** One call keeps a settled cache settled. *)
Lemma connectDB_settled_step
    (mongoose_connect : list ConnectCall -> Promise Handle) (v : Variant)
    (uri : option string) (s : ConnState) :
  settled_cache (cached s) ->
  settled_cache (cached (snd (connectDB_of v mongoose_connect uri s))).
Proof.
  intros [Hempty | [h Hh]]; destruct s as [c calls]; simpl in *; subst c.
  - destruct (starts_attempt v uri) eqn:Hstart.
    + rewrite (connectDB_fresh_attempt mongoose_connect v uri calls Hstart).
      destruct (mongoose_connect _) as [h|e]; simpl.
      * right. exists h. reflexivity.
      * left. reflexivity.
    + destruct v; [discriminate|]. simpl in Hstart. run.
      destruct (not_uri uri); [|discriminate]. left. reflexivity.
  - rewrite (connectDB_cached mongoose_connect v uri
               (mkConn (mkCache (Some h) (Some (Fulfills h))) calls) h eq_refl).
    right. exists h. reflexivity.
Qed.

(** X3. Starting from a settled cache (empty, or a handle with its fulfilled
    attempt), any number of calls leaves the cache settled: a rejected or
    unfinished attempt never stays behind, and a handle is never cached
    without the attempt that produced it. *)
Theorem connectDB_keeps_cache_settled
    (mongoose_connect : list ConnectCall -> Promise Handle) (v : Variant)
    (uri : option string) (n : nat) (s : ConnState) :
  settled_cache (cached s) ->
  settled_cache (cached (snd (call_times n (connectDB_of v mongoose_connect uri) s))).
Proof.
  revert s. induction n as [|n IH]; intros s Hs; simpl.
  - exact Hs.
  - pose proof (connectDB_settled_step mongoose_connect v uri s Hs) as Hstep.
    destruct (connectDB_of v mongoose_connect uri s) as [r s1]. simpl in Hstep.
    specialize (IH s1 Hstep).
    destruct (call_times n (connectDB_of v mongoose_connect uri) s1) as [rs s2].
    exact IH.
Qed.

Lemma connectDB_keeps_cache_settled_witness :
  settled_cache
    (cached (snd (call_times 3 (connectDB_of AtModuleScope flaky_driver sample_uri)
                    (mkConn (initial_cache None) [])))).
Proof.
  apply (connectDB_keeps_cache_settled flaky_driver AtModuleScope sample_uri 3
           (mkConn (initial_cache None) [])).
  left. reflexivity.
Defined.

(** X4. The cache survives a re-evaluation of the module.  After a successful
    [connectDB], a module evaluated again over the same [global.mongoose] (of
    either variant, with whatever URI and driver) returns the same handle from
    its first call, without calling the driver. *)
Theorem reload_keeps_connection
    (mongoose_connect mongoose_connect' : list ConnectCall -> Promise Handle)
    (v v' : Variant) (uri uri' : option string) (s s1 : ConnState)
    (r : option Handle) (m : Loaded) :
  connectDB_of v mongoose_connect uri s = (Normal r, s1) ->
  load_of v' uri' (Some (cached s1)) = Normal m ->
  connectDB_of v' mongoose_connect' (MONGODB_URI m)
    (mkConn (loaded_cache m) (connect_calls s1))
  = (Normal r, s1).
Proof.
  intros Hrun Hload.
  destruct (connectDB_normal _ _ _ _ _ _ Hrun) as (h & -> & Hc).
  assert (Hcache : loaded_cache m = cached s1).
  { destruct v'; simpl in Hload.
    - unfold ModuleScopeCheck.load in Hload.
      destruct (not_uri uri'); [discriminate|]. injection Hload as <-. reflexivity.
    - unfold CallTimeCheck.load in Hload. injection Hload as <-. reflexivity. }
  rewrite Hcache. destruct s1 as [c1 calls1]. simpl in *.
  apply connectDB_cached. exact Hc.
Qed.

Lemma reload_keeps_connection_witness :
  connectDB_of AtCallTime refusing_driver None
    (mkConn (mkCache (Some 7) (Some (Fulfills 7))) [the_connect_call sample_uri])
  = (Normal (Some 7), connected).
Proof.
  apply (reload_keeps_connection (fun _ => Fulfills 7) refusing_driver
           AtModuleScope AtCallTime sample_uri None (mkConn empty_cache []) connected
           (Some 7) {| MONGODB_URI := None; loaded_cache := cached connected |});
    reflexivity.
Defined.

(** X5. With a URI in the environment the two variants are interchangeable:
    evaluating the module gives the same result and [connectDB] is the same
    function of the state. *)
Theorem variants_agree_with_uri
    (mongoose_connect : list ConnectCall -> Promise Handle) (uri : option string)
    (global_mongoose : option MongooseCache) (s : ConnState) :
  not_uri uri = false ->
  load_of AtModuleScope uri global_mongoose = load_of AtCallTime uri global_mongoose /\
  connectDB_of AtModuleScope mongoose_connect uri s
  = connectDB_of AtCallTime mongoose_connect uri s.
Proof.
  intros Huri. split.
  - simpl. unfold ModuleScopeCheck.load, CallTimeCheck.load. rewrite Huri. reflexivity.
  - apply connectDB_variants_agree, Huri.
Qed.

Lemma variants_agree_with_uri_witness :
  load_of AtModuleScope sample_uri None = load_of AtCallTime sample_uri None /\
  connectDB_of AtModuleScope flaky_driver sample_uri (mkConn empty_cache [])
  = connectDB_of AtCallTime flaky_driver sample_uri (mkConn empty_cache []).
Proof.
  apply (variants_agree_with_uri flaky_driver sample_uri None (mkConn empty_cache []));
    reflexivity.
Defined.

(** X6. A module that was evaluated successfully never hands the driver a
    missing URI: every call [connectDB] adds to the driver's calls carries the
    non-empty URI of the environment and [bufferCommands: false]. *)
Theorem driver_gets_the_configured_uri
    (mongoose_connect : list ConnectCall -> Promise Handle) (v : Variant)
    (env_uri : option string) (global_mongoose : option MongooseCache) (m : Loaded)
    (s : ConnState) (c : ConnectCall) :
  load_of v env_uri global_mongoose = Normal m ->
  In c (connect_calls (snd (connectDB_of v mongoose_connect (MONGODB_URI m) s))) ->
  In c (connect_calls s) \/
  exists u, env_uri = Some u /\ u <> "" /\
            c = {| call_uri := Some u; call_options := {| bufferCommands := false |} |}.
Proof.
  intros Hload Hin.
  assert (Hm : MONGODB_URI m = env_uri).
  { destruct v; simpl in Hload.
    - unfold ModuleScopeCheck.load in Hload.
      destruct (not_uri env_uri); [discriminate|]. injection Hload as <-. reflexivity.
    - unfold CallTimeCheck.load in Hload. injection Hload as <-. reflexivity. }
  rewrite Hm in Hin.
  destruct (connectDB_calls_grow mongoose_connect v env_uri s)
    as [Hsame | (_ & Hstart & Hgrow)].
  - left. rewrite Hsame in Hin. exact Hin.
  - rewrite Hgrow in Hin. apply in_app_or in Hin. destruct Hin as [Hin | [<- | []]].
    + left. exact Hin.
    + right.
      assert (Huri : not_uri env_uri = false).
      { destruct v; simpl in *.
        - unfold ModuleScopeCheck.load in Hload.
          destruct (not_uri env_uri); [discriminate|reflexivity].
        - destruct (not_uri env_uri); [discriminate|reflexivity]. }
      destruct env_uri as [u|]; [|discriminate]. simpl in Huri.
      exists u. split; [reflexivity|]. split; [|reflexivity].
      intros ->. discriminate.
Qed.

Lemma driver_gets_the_configured_uri_witness :
  In (the_connect_call sample_uri) [] \/
  exists u, sample_uri = Some u /\ u <> "" /\
            the_connect_call sample_uri
            = {| call_uri := Some u; call_options := {| bufferCommands := false |} |}.
Proof.
  apply (driver_gets_the_configured_uri refusing_driver AtModuleScope sample_uri None
           {| MONGODB_URI := sample_uri; loaded_cache := empty_cache |}
           (mkConn empty_cache []) (the_connect_call sample_uri)).
  - reflexivity.
  - simpl. left. reflexivity.
Defined.

(** X7. Nothing is retried inside a call, and nothing is remembered of a
    failure: against a driver that rejects every attempt, [n] calls from an
    empty cache all throw, make exactly [n] attempts, one each, and leave the
    cache empty. *)
Theorem connectDB_one_attempt_per_failing_call
    (mongoose_connect : list ConnectCall -> Promise Handle) (v : Variant)
    (uri : option string) (n : nat) (calls : list ConnectCall) :
  starts_attempt v uri = true ->
  (forall cs, exists e, mongoose_connect cs = Rejects e) ->
  exists results,
    call_times n (connectDB_of v mongoose_connect uri) (mkConn empty_cache calls)
    = (results, mkConn empty_cache (calls ++ repeat (the_connect_call uri) n)) /\
    length results = n /\
    Forall (fun r => exists e, r = Throw e) results.
Proof.
  intros Hstart Hreject. revert calls.
  induction n as [|n IH]; intros calls; simpl.
  - exists []. rewrite app_nil_r. repeat split. constructor.
  - rewrite (connectDB_fresh_attempt mongoose_connect v uri calls Hstart).
    destruct (Hreject (calls ++ [the_connect_call uri])) as [e ->].
    destruct (IH (calls ++ [the_connect_call uri])) as (results & -> & Hlen & Hall).
    exists (Throw e :: results). split; [|split].
    + rewrite <- app_assoc. reflexivity.
    + simpl. rewrite Hlen. reflexivity.
    + constructor; [eexists; reflexivity|exact Hall].
Qed.

Lemma connectDB_one_attempt_per_failing_call_witness :
  exists results,
    call_times 3 (connectDB_of AtCallTime refusing_driver sample_uri) (mkConn empty_cache [])
    = (results, mkConn empty_cache ([] ++ repeat (the_connect_call sample_uri) 3)) /\
    length results = 3 /\
    Forall (fun r => exists e, r = Throw e) results.
Proof.
  apply (connectDB_one_attempt_per_failing_call refusing_driver AtCallTime sample_uri 3 []).
  - reflexivity.
  - intros cs. eexists. reflexivity.
Defined.

(** * Further properties of the route handlers *)

Section RouteMore.

Context {C R : Type}.
Variable connectDB : M C R.
Variable env : Env.

(** X8. [POST] never throws: whatever the collaborators do, it completes with
    a response whose status is 201, 400 or 500.  A 500 always has the message
    "Event Creation Failed" with the text of the caught value, which is also
    the one thing written to the console; otherwise nothing is written. *)
Theorem POST_always_responds (req : NextRequest) (w : World C) :
  exists response w',
    POST connectDB env req w = (Normal response, w') /\
    (status response = 201%Z \/ status response = 400%Z \/ status response = 500%Z) /\
    (status response = 500%Z ->
     exists e, body response = MessageError "Event Creation Failed" (error_text e) /\
               console w' = console w ++ [e]) /\
    (status response <> 500%Z -> console w' = console w).
Proof.
  run_route.
  destruct (connectDB (conn_state w)) as [[r|e] c1]; simpl.
  2:{ do 2 eexists. split; [reflexivity|]. simpl. split; [auto|]. split.
      - intros _. eexists. split; reflexivity.
      - intros H. destruct H. reflexivity. }
  destruct (req_formData req) as [form|e]; simpl.
  2:{ do 2 eexists. split; [reflexivity|]. simpl. split; [auto|]. split.
      - intros _. eexists. split; reflexivity.
      - intros H. destruct H. reflexivity. }
  rewrite Object_fromEntries_normal.
  destruct (truthy_entry (FormData_get "image" form)); simpl.
  2:{ do 2 eexists. split; [reflexivity|]. simpl. split; [auto|]. split.
      - discriminate.
      - reflexivity. }
  repeat case_step;
    (do 2 eexists; split; [reflexivity|]; simpl; split; [auto|]; split;
     [ first [ discriminate | intros _; eexists; split; reflexivity ]
     | first [ reflexivity | intros H; destruct H; reflexivity ] ]).
Qed.

(** X9. When the connection cannot be acquired, or the body cannot be read as
    a form, [POST] answers 500 with the text of that failure and does nothing
    else: no upload, no insert, only the failure on the console. *)
Theorem POST_fails_before_the_form (req : NextRequest) (w : World C) (e : Thrown) :
  fst (connectDB (conn_state w)) = Throw e \/
  ((exists r, fst (connectDB (conn_state w)) = Normal r) /\ req_formData req = Rejects e) ->
  POST connectDB env req w
  = (Normal (json (MessageError "Event Creation Failed" (error_text e)) 500),
     mkWorld (snd (connectDB (conn_state w))) (uploads w) (creates w) (collection w)
             (console w ++ [e])).
Proof.
  intros [Hconn | [[r Hconn] Hform]]; run_route;
    destruct (connectDB (conn_state w)) as [result c1]; simpl in *; subst result.
  - reflexivity.
  - rewrite Hform. reflexivity.
Qed.

(** X10. Once the form has been read, [POST] answers 400 exactly when
    [formData.get("image")] is falsy, that is [null] or the empty string, and
    the 400 is always "Image file is required". *)
Theorem POST_400_iff_image_falsy (req : NextRequest) (w w' : World C) (r : R) (c1 : C)
    (form : FormData) (response : NextResponse) :
  connectDB (conn_state w) = (Normal r, c1) ->
  req_formData req = Fulfills form ->
  POST connectDB env req w = (Normal response, w') ->
  (status response = 400%Z <-> truthy_entry (FormData_get "image" form) = false) /\
  (status response = 400%Z -> body response = MessageOnly "Image file is required").
Proof.
  intros Hconn Hform. run_route. rewrite Hconn, Hform. simpl.
  rewrite Object_fromEntries_normal.
  destruct (truthy_entry (FormData_get "image" form)); simpl.
  2:{ intros [= <- <-]. simpl. split; [split; reflexivity|reflexivity]. }
  repeat case_step; intros [= <- <-]; simpl;
    (split; [split; discriminate|discriminate]).
Qed.

End RouteMore.

(** [Object.fromEntries] keeps, for every name, the last value the form gives
    it. *)
Lemma form_properties_lookup (form : FormData) (k : string) :
  forall start : gmap string JsValue,
    form_properties form start !! k
    = match FormData_get_last k form with
      | Some v => Some (value_of_entry v)
      | None => start !! k
      end.
Proof.
  induction form as [|[k0 v0] rest IH]; intros start; simpl.
  - reflexivity.
  - unfold form_properties in *. simpl. rewrite IH.
    destruct (FormData_get_last k rest); [reflexivity|].
    destruct (decide (k0 = k)) as [->|Hne].
    + apply lookup_insert_eq.
    + rewrite lookup_insert_ne by exact Hne. reflexivity.
Qed.

Section RouteEffects.

Context {C R : Type}.
Variable connectDB : M C R.
Variable env : Env.

(** X11. Only a file is ever uploaded.  When the first [image] entry of the
    form is not a file (it is missing or a text value), no run of [POST]
    uploads anything or hands anything to the database. *)
Theorem POST_uploads_only_files (req : NextRequest) (w w' : World C)
    (result : Completion NextResponse) :
  (forall form f, req_formData req = Fulfills form ->
                  FormData_get "image" form <> Some (EntryFile f)) ->
  POST connectDB env req w = (result, w') ->
  uploads w' = uploads w /\ creates w' = creates w /\ collection w' = collection w.
Proof.
  intros Hnofile. run_route.
  destruct (connectDB (conn_state w)) as [[r|e] c1]; simpl.
  2:{ intros [= <- <-]. repeat split. }
  destruct (req_formData req) as [form|e] eqn:Hform; simpl.
  2:{ intros [= <- <-]. repeat split. }
  specialize (Hnofile form).
  rewrite Object_fromEntries_normal.
  destruct (FormData_get "image" form) as [[s|f]|]; simpl.
  - destruct (decide (s = "")); simpl.
    + intros [= <- <-]. repeat split.
    + repeat case_step; intros [= <- <-]; repeat split.
  - destruct (Hnofile f eq_refl eq_refl).
  - intros [= <- <-]. repeat split.
Qed.

(** X12. A non-empty text value under [image] gets past the guard: with the
    connection acquired and [tags] and [agenda] parsing, the handler fails at
    [file.arrayBuffer()] and answers 500 with the message of that
    [TypeError], not 400. *)
Theorem POST_text_image_answers_500 (req : NextRequest) (w : World C) (r : R) (c1 : C)
    (form : FormData) (s : string) (tags agenda : JsValue) :
  connectDB (conn_state w) = (Normal r, c1) ->
  req_formData req = Fulfills form ->
  FormData_get "image" form = Some (EntryString s) ->
  s <> "" ->
  json_value (ToString_entry (FormData_get "tags" form)) = Some tags ->
  json_value (ToString_entry (FormData_get "agenda" form)) = Some agenda ->
  POST connectDB env req w
  = (Normal (json (MessageError "Event Creation Failed"
                     (engine env (NotAFunction "arrayBuffer"))) 500),
     mkWorld c1 (uploads w) (creates w) (collection w)
       (console w ++ [TypeError (engine env) (NotAFunction "arrayBuffer")])).
Proof.
  intros Hconn Hform Himage Hs Htags Hagenda. run_route.
  rewrite Hconn, Hform. simpl.
  rewrite Object_fromEntries_normal, Himage. simpl.
  destruct (decide (s = "")) as [Heq|_]; [destruct (Hs Heq)|]. simpl.
  unfold JSON_parse. rewrite Htags, Hagenda. reflexivity.
Qed.

(** X13. Malformed JSON is a server error.  With the connection acquired and
    a truthy [image], if [tags] or [agenda] is not a JSON text, [POST] answers
    500 with the message of the [SyntaxError] for the first of the two that
    fails, and neither uploads nor inserts. *)
Theorem POST_malformed_json_answers_500 (req : NextRequest) (w : World C) (r : R) (c1 : C)
    (form : FormData) :
  connectDB (conn_state w) = (Normal r, c1) ->
  req_formData req = Fulfills form ->
  truthy_entry (FormData_get "image" form) = true ->
  json_value (ToString_entry (FormData_get "tags" form)) = None \/
  json_value (ToString_entry (FormData_get "agenda" form)) = None ->
  let text :=
    match json_value (ToString_entry (FormData_get "tags" form)) with
    | None => ToString_entry (FormData_get "tags" form)
    | Some _ => ToString_entry (FormData_get "agenda" form)
    end in
  POST connectDB env req w
  = (Normal (json (MessageError "Event Creation Failed" (engine env (JsonSyntax text))) 500),
     mkWorld c1 (uploads w) (creates w) (collection w)
       (console w ++ [ErrorInstance "SyntaxError" (engine env (JsonSyntax text))])).
Proof.
  intros Hconn Hform Himage Hbad. run_route.
  rewrite Hconn, Hform. simpl.
  rewrite Object_fromEntries_normal, Himage. simpl.
  unfold JSON_parse.
  destruct (json_value (ToString_entry (FormData_get "tags" form))) as [tags|]; simpl.
  - destruct Hbad as [Hbad | Hbad]; [discriminate|]. rewrite Hbad. reflexivity.
  - reflexivity.
Qed.

(** X14. An event is stored exactly when [POST] answers 201: either the
    answer is 201 "Event created successfully" with an event that was stamped
    with the current time and appended to the collection, or the collection is
    unchanged and the answer is not a 201. *)
Theorem POST_stores_iff_201 (req : NextRequest) (w w' : World C)
    (result : Completion NextResponse) :
  POST connectDB env req w = (result, w') ->
  (exists event,
     result = Normal (json (MessageEvent "Event created successfully" event) 201) /\
     createdAt event = now env /\
     collection w' = collection w ++ [event] /\
     creates w' = creates w ++ [doc_fields event]) \/
  (collection w' = collection w /\
   forall response, result = Normal response -> status response <> 201%Z).
Proof.
  run_route.
  destruct (connectDB (conn_state w)) as [[r|e] c1]; simpl.
  2:{ intros [= <- <-]. right. split; [reflexivity|]. intros ? [= <-]. discriminate. }
  destruct (req_formData req) as [form|e]; simpl.
  2:{ intros [= <- <-]. right. split; [reflexivity|]. intros ? [= <-]. discriminate. }
  rewrite Object_fromEntries_normal.
  destruct (truthy_entry (FormData_get "image" form)); simpl.
  2:{ intros [= <- <-]. right. split; [reflexivity|]. intros ? [= <-]. discriminate. }
  repeat case_step; intros [= <- <-]; simpl;
    first [ right; split; [reflexivity|]; intros ? [= <-]; discriminate
          | left; eexists; repeat split ].
Qed.

(** X15. Nothing is rolled back.  When the upload succeeds and the database
    then rejects the insert, [POST] answers 500 with the text of the
    database's error; the upload has been made and stays made, and the
    collection is unchanged. *)
Theorem POST_insert_failure_keeps_upload (req : NextRequest) (w : World C) (r : R) (c1 : C)
    (form : FormData) (f : File) (tags agenda : JsValue) (res : UploadResult) (e : Thrown) :
  connectDB (conn_state w) = (Normal r, c1) ->
  req_formData req = Fulfills form ->
  FormData_get "image" form = Some (EntryFile f) ->
  json_value (ToString_entry (FormData_get "tags" form)) = Some tags ->
  json_value (ToString_entry (FormData_get "agenda" form)) = Some agenda ->
  upload_stream env (image_upload (file_bytes f)) = (None, Some res) ->
  create_rejects env (event_document form (secure_url res) tags agenda) = Some e ->
  POST connectDB env req w
  = (Normal (json (MessageError "Event Creation Failed" (error_text e)) 500),
     mkWorld c1
       (uploads w ++ [image_upload (file_bytes f)])
       (creates w ++ [event_document form (secure_url res) tags agenda])
       (collection w)
       (console w ++ [e])).
Proof.
  intros Hconn Hform Himage Htags Hagenda Hup Hcreate.
  unfold image_upload in *. unfold event_document in *.
  run_route. rewrite Hconn, Hform. simpl.
  rewrite Object_fromEntries_normal, Himage. simpl.
  unfold JSON_parse. rewrite Htags, Hagenda. simpl.
  rewrite Hup. simpl.
  rewrite CreateDataPropertyOrThrow_extensible by reflexivity.
  unfold spread_with_tags_agenda. simpl. rewrite Hcreate. reflexivity.
Qed.

(** X16. What a run of [POST] does outside the connection module.  It uploads
    at most once, and then the bytes of the [image] file, as an image, into
    the folder [DevEvent]; it hands at most one document to the database, only
    after an upload whose callback carried no truthy error and a result, and
    that document is the form's fields with [image] set to the [secure_url] of
    the upload and [tags] and [agenda] set to the parsed values. *)
Theorem POST_effects (req : NextRequest) (w w' : World C)
    (result : Completion NextResponse) :
  POST connectDB env req w = (result, w') ->
  (uploads w' = uploads w /\ creates w' = creates w) \/
  exists form f,
    req_formData req = Fulfills form /\
    FormData_get "image" form = Some (EntryFile f) /\
    uploads w' = uploads w ++ [image_upload (file_bytes f)] /\
    (creates w' = creates w \/
     exists error res tags agenda,
       upload_stream env (image_upload (file_bytes f)) = (error, Some res) /\
       truthy_error error = false /\
       json_value (ToString_entry (FormData_get "tags" form)) = Some tags /\
       json_value (ToString_entry (FormData_get "agenda" form)) = Some agenda /\
       creates w' = creates w ++ [event_document form (secure_url res) tags agenda]).
Proof.
  run_route.
  destruct (connectDB (conn_state w)) as [[r|e] c1]; simpl.
  2:{ intros [= <- <-]. left. split; reflexivity. }
  destruct (req_formData req) as [form|e] eqn:Hform; simpl.
  2:{ intros [= <- <-]. left. split; reflexivity. }
  rewrite Object_fromEntries_normal.
  destruct (FormData_get "image" form) as [[s|f]|] eqn:Himage; simpl.
  - destruct (decide (s = "")); simpl.
    + intros [= <- <-]. left. split; reflexivity.
    + repeat case_step; intros [= <- <-]; left; split; reflexivity.
  - unfold JSON_parse.
    destruct (json_value (ToString_entry (FormData_get "tags" form))) as [tags|] eqn:Htags;
      simpl.
    2:{ intros [= <- <-]. left. split; reflexivity. }
    destruct (json_value (ToString_entry (FormData_get "agenda" form))) as [agenda|]
      eqn:Hagenda; simpl.
    2:{ intros [= <- <-]. left. split; reflexivity. }
    fold (image_upload (file_bytes f)).
    destruct (upload_stream env (image_upload (file_bytes f))) as [error [res|]] eqn:Hup.
    + destruct (truthy_error error) eqn:Herror.
      * destruct error as [e|]; [|discriminate Herror]. simpl in Herror.
        simpl. rewrite Herror. simpl.
        intros [= <- <-]. right. exists form, f.
        split; [first [reflexivity|exact Hform]|split; [first [reflexivity|exact Himage]|
            split; [reflexivity|left; reflexivity]]].
      * assert (Hresolves :
          match error with
          | Some e => if truthy_thrown e then Rejects e else Fulfills (Some res)
          | None => Fulfills (Some res)
          end = Fulfills (Some res)).
        { destruct error as [e|]; [|reflexivity]. simpl in Herror. rewrite Herror.
          reflexivity. }
        simpl. rewrite Hresolves. simpl.
        rewrite CreateDataPropertyOrThrow_extensible by reflexivity.
        unfold spread_with_tags_agenda. simpl.
        fold (event_document form (secure_url res) tags agenda).
        destruct (create_rejects env _); simpl;
          intros [= <- <-]; right; exists form, f;
          (split; [first [reflexivity|exact Hform]|split; [first [reflexivity|exact Himage]|
             split; [reflexivity|]]]);
          right; exists error, res, tags, agenda;
          (split; [first [reflexivity|exact Hup]|split; [exact Herror|split; [exact Htags|
             split; [exact Hagenda|reflexivity]]]]).
    + destruct error as [e|]; simpl; [destruct (truthy_thrown e); simpl|];
        intros [= <- <-]; right; exists form, f;
        (split; [first [reflexivity|exact Hform]|split; [first [reflexivity|exact Himage]|
            split; [reflexivity|left; reflexivity]]]).
  - intros [= <- <-]. left. split; reflexivity.
Qed.

(** A 201 comes from one path only: a file was uploaded, the callback of the
    upload carried no truthy error and a result, and the document of the form
    was stored. *)
Lemma POST_201_inversion (req : NextRequest) (w w' : World C) (m : string)
    (event : StoredDoc) :
  POST connectDB env req w = (Normal (json (MessageEvent m event) 201), w') ->
  exists form f error res tags agenda,
    req_formData req = Fulfills form /\
    FormData_get "image" form = Some (EntryFile f) /\
    upload_stream env (image_upload (file_bytes f)) = (error, Some res) /\
    truthy_error error = false /\
    json_value (ToString_entry (FormData_get "tags" form)) = Some tags /\
    json_value (ToString_entry (FormData_get "agenda" form)) = Some agenda /\
    doc_fields event = event_document form (secure_url res) tags agenda /\
    collection w' = collection w ++ [event].
Proof.
  run_route.
  destruct (connectDB (conn_state w)) as [[r|e] c1]; simpl; [|discriminate].
  destruct (req_formData req) as [form|e] eqn:Hform; simpl; [|discriminate].
  rewrite Object_fromEntries_normal.
  destruct (FormData_get "image" form) as [[s|f]|] eqn:Himage; simpl.
  - destruct (decide (s = "")); simpl; [discriminate|].
    repeat case_step; discriminate.
  - unfold JSON_parse.
    destruct (json_value (ToString_entry (FormData_get "tags" form))) as [tags|] eqn:Htags;
      simpl; [|discriminate].
    destruct (json_value (ToString_entry (FormData_get "agenda" form))) as [agenda|]
      eqn:Hagenda; simpl; [|discriminate].
    fold (image_upload (file_bytes f)).
    destruct (upload_stream env (image_upload (file_bytes f))) as [error [res|]] eqn:Hup.
    + destruct (truthy_error error) eqn:Herror.
      * destruct error as [e|]; [|discriminate Herror]. simpl in Herror.
        simpl. rewrite Herror. simpl. discriminate.
      * assert (Hresolves :
          match error with
          | Some e => if truthy_thrown e then Rejects e else Fulfills (Some res)
          | None => Fulfills (Some res)
          end = Fulfills (Some res)).
        { destruct error as [e|]; [|reflexivity]. simpl in Herror. rewrite Herror.
          reflexivity. }
        simpl. rewrite Hresolves. simpl.
        rewrite CreateDataPropertyOrThrow_extensible by reflexivity.
        unfold spread_with_tags_agenda. simpl.
        fold (event_document form (secure_url res) tags agenda).
        destruct (create_rejects env _); simpl; [discriminate|].
        intros [= <- <- <-].
        exists form, f, error, res, tags, agenda.
        split; [first [reflexivity|exact Hform]|].
        split; [first [reflexivity|exact Himage]|].
        split; [first [reflexivity|exact Hup]|].
        split; [exact Herror|].
        split; [exact Htags|]. split; [exact Hagenda|]. split; reflexivity.
    + destruct error as [e|]; simpl; [destruct (truthy_thrown e); simpl|]; discriminate.
  - discriminate.
Qed.

(** X17. What a created event holds.  Every field other than [image], [tags]
    and [agenda] has the last value the form gives that name (and is absent
    when the form has none); [image] is a URL text, whatever the form sent
    under that name; [tags] and [agenda] are the parsed first values of those
    names. *)
Theorem POST_event_fields (req : NextRequest) (w w' : World C) (form : FormData)
    (m : string) (event : StoredDoc) :
  req_formData req = Fulfills form ->
  POST connectDB env req w = (Normal (json (MessageEvent m event) 201), w') ->
  (forall k, k <> "image" -> k <> "tags" -> k <> "agenda" ->
     doc_fields event !! k = value_of_entry <$> FormData_get_last k form) /\
  (exists url, doc_fields event !! "image" = Some (VString url)) /\
  doc_fields event !! "tags" = json_value (ToString_entry (FormData_get "tags" form)) /\
  doc_fields event !! "agenda" = json_value (ToString_entry (FormData_get "agenda" form)).
Proof.
  intros Hform Hrun.
  destruct (POST_201_inversion _ _ _ _ _ Hrun)
    as (form' & f & error & res & tags & agenda
        & Hform' & _ & _ & _ & Htags & Hagenda & Hdoc & _).
  rewrite Hform in Hform'. injection Hform' as <-.
  rewrite Hdoc, Htags, Hagenda. unfold event_document.
  split; [|split; [|split]].
  - intros k Hi Ht Ha.
    rewrite !lookup_insert_ne by congruence.
    rewrite form_properties_lookup, lookup_empty.
    destruct (FormData_get_last k form); reflexivity.
  - exists (secure_url res).
    rewrite !lookup_insert_ne by discriminate. apply lookup_insert_eq.
  - rewrite lookup_insert_ne by discriminate. apply lookup_insert_eq.
  - apply lookup_insert_eq.
Qed.

(** X18. An upload that calls back with neither an error nor a result is a
    server error: reading [secure_url] fails, [POST] answers 500 with the
    message of that [TypeError], the upload has been made and nothing is
    handed to the database. *)
Theorem POST_upload_without_result (req : NextRequest) (w : World C) (r : R) (c1 : C)
    (form : FormData) (f : File) (tags agenda : JsValue) :
  connectDB (conn_state w) = (Normal r, c1) ->
  req_formData req = Fulfills form ->
  FormData_get "image" form = Some (EntryFile f) ->
  json_value (ToString_entry (FormData_get "tags" form)) = Some tags ->
  json_value (ToString_entry (FormData_get "agenda" form)) = Some agenda ->
  upload_stream env (image_upload (file_bytes f)) = (None, None) ->
  POST connectDB env req w
  = (Normal (json (MessageError "Event Creation Failed"
                     (engine env (PropertyOfUndefined "secure_url"))) 500),
     mkWorld c1 (uploads w ++ [image_upload (file_bytes f)]) (creates w) (collection w)
       (console w ++ [TypeError (engine env) (PropertyOfUndefined "secure_url")])).
Proof.
  intros Hconn Hform Himage Htags Hagenda Hup. unfold image_upload in *.
  run_route. rewrite Hconn, Hform. simpl.
  rewrite Object_fromEntries_normal, Himage. simpl.
  unfold JSON_parse. rewrite Htags, Hagenda. simpl.
  rewrite Hup. reflexivity.
Qed.

(** Each handler runs [connectDB] once, first, and leaves the state of the
    connection module as that call left it. *)
Lemma POST_conn_state (req : NextRequest) (w : World C) :
  conn_state (snd (POST connectDB env req w)) = snd (connectDB (conn_state w)).
Proof.
  run_route.
  destruct (connectDB (conn_state w)) as [[r|e] c1]; simpl; [|reflexivity].
  destruct (req_formData req) as [form|e]; simpl; [|reflexivity].
  rewrite Object_fromEntries_normal.
  destruct (truthy_entry (FormData_get "image" form)); simpl; [|reflexivity].
  repeat case_step; reflexivity.
Qed.

Lemma GET_conn_state (w : World C) :
  conn_state (snd (GET connectDB env w)) = snd (connectDB (conn_state w)).
Proof.
  run_route.
  destruct (connectDB (conn_state w)) as [[r|e] c1]; simpl; [|reflexivity].
  destruct (find_rejects env); reflexivity.
Qed.

End RouteEffects.

(** X19. Requests share the connection.  With either variant of the module
    behind the handlers, once a handle is cached a [POST] or a [GET] leaves
    the state of the connection module exactly as it was: no request connects
    again. *)
Theorem handlers_reuse_connection
    (mongoose_connect : list ConnectCall -> Promise Handle) (v : Variant)
    (uri : option string) (env : Env) (req : NextRequest) (w : World ConnState)
    (h : Handle) :
  conn (cached (conn_state w)) = Some h ->
  conn_state (snd (POST (connectDB_of v mongoose_connect uri) env req w)) = conn_state w /\
  conn_state (snd (GET (connectDB_of v mongoose_connect uri) env w)) = conn_state w.
Proof.
  intros Hcached.
  rewrite POST_conn_state, GET_conn_state.
  rewrite (connectDB_cached mongoose_connect v uri (conn_state w) h Hcached).
  split; reflexivity.
Qed.

(** X20. The first request of a process connects, once.  From a world in
    which nothing is cached, with a URI and a driver whose attempt succeeds
    with [h], a [POST] leaves [h] cached and exactly one call made to the
    driver, with the configured URI and [bufferCommands: false]. *)
Theorem first_POST_connects_once
    (mongoose_connect : list ConnectCall -> Promise Handle) (v : Variant)
    (uri : option string) (env : Env) (req : NextRequest) (w : World ConnState)
    (h : Handle) :
  cached (conn_state w) = empty_cache ->
  not_uri uri = false ->
  mongoose_connect (connect_calls (conn_state w) ++ [the_connect_call uri]) = Fulfills h ->
  conn_state (snd (POST (connectDB_of v mongoose_connect uri) env req w))
  = mkConn (mkCache (Some h) (Some (Fulfills h)))
           (connect_calls (conn_state w) ++ [the_connect_call uri]).
Proof.
  intros Hempty Huri Hdriver.
  rewrite POST_conn_state.
  destruct (conn_state w) as [c calls]. simpl in *. subst c.
  assert (Hstart : starts_attempt v uri = true).
  { destruct v; simpl; [reflexivity|]. rewrite Huri. reflexivity. }
  rewrite (connectDB_fresh_attempt mongoose_connect v uri calls Hstart), Hdriver.
  reflexivity.
Qed.

(** ** Sample runs of the further properties *)

Lemma POST_fails_before_the_form_witness :
  POST (connectDB_of AtCallTime refusing_driver sample_uri)
    (sample_env (None, Some sample_result)) (request form_complete) fresh_world
  = (Normal (json (MessageError "Event Creation Failed" "connect ECONNREFUSED") 500),
     mkWorld (mkConn empty_cache [the_connect_call sample_uri]) [] [] []
       [ErrorInstance "MongooseServerSelectionError" "connect ECONNREFUSED"]).
Proof.
  apply (POST_fails_before_the_form (connectDB_of AtCallTime refusing_driver sample_uri)
           (sample_env (None, Some sample_result)) (request form_complete) fresh_world
           (ErrorInstance "MongooseServerSelectionError" "connect ECONNREFUSED")).
  left. reflexivity.
Defined.

Lemma POST_400_iff_image_falsy_witness :
  (400%Z = 400%Z <-> truthy_entry (FormData_get "image" form_without_image) = false) /\
  (400%Z = 400%Z -> MessageOnly "Image file is required" = MessageOnly "Image file is required").
Proof.
  apply (POST_400_iff_image_falsy sample_connectDB (sample_env (None, Some sample_result))
           (request form_without_image) fresh_world (mkWorld connected [] [] [] [])
           (Some 7) connected form_without_image
           (json (MessageOnly "Image file is required") 400));
    reflexivity.
Defined.

Lemma POST_uploads_only_files_witness :
  let run := POST sample_connectDB (sample_env (None, Some sample_result))
               (request form_text_image) fresh_world in
  uploads (snd run) = [] /\ creates (snd run) = [] /\ collection (snd run) = [].
Proof.
  intros run.
  apply (POST_uploads_only_files sample_connectDB (sample_env (None, Some sample_result))
           (request form_text_image) fresh_world (snd run) (fst run)).
  - intros form f [= <-]. discriminate.
  - subst run. apply surjective_pairing.
Defined.

Lemma POST_text_image_answers_500_witness :
  POST sample_connectDB (sample_env (None, Some sample_result))
    (request form_text_image) fresh_world
  = (Normal (json (MessageError "Event Creation Failed" "arrayBuffer is not a function") 500),
     mkWorld connected [] [] []
       [ErrorInstance "TypeError" "arrayBuffer is not a function"]).
Proof.
  apply (POST_text_image_answers_500 sample_connectDB (sample_env (None, Some sample_result))
           (request form_text_image) fresh_world (Some 7) connected form_text_image
           "poster.png" (VArray []) (VArray []));
    try reflexivity; try discriminate; vm_compute; reflexivity.
Defined.

Lemma POST_malformed_json_answers_500_witness :
  POST sample_connectDB (sample_env (None, Some sample_result))
    (request form_not_json) fresh_world
  = (Normal (json (MessageError "Event Creation Failed" "Unexpected token in JSON") 500),
     mkWorld connected [] [] []
       [ErrorInstance "SyntaxError" "Unexpected token in JSON"]).
Proof.
  apply (POST_malformed_json_answers_500 sample_connectDB
           (sample_env (None, Some sample_result))
           (request form_not_json) fresh_world (Some 7) connected form_not_json);
    try reflexivity.
  left. vm_compute. reflexivity.
Defined.

Lemma POST_stores_iff_201_witness :
  let run := POST sample_connectDB (sample_env (None, Some sample_result))
               (request form_complete) fresh_world in
  (exists event,
     fst run = Normal (json (MessageEvent "Event created successfully" event) 201) /\
     createdAt event = 1000 /\
     collection (snd run) = [] ++ [event] /\
     creates (snd run) = [] ++ [doc_fields event]) \/
  (collection (snd run) = [] /\
   forall response, fst run = Normal response -> status response <> 201%Z).
Proof.
  intros run.
  apply (POST_stores_iff_201 sample_connectDB (sample_env (None, Some sample_result))
           (request form_complete) fresh_world (snd run) (fst run)).
  subst run. apply surjective_pairing.
Defined.

Lemma POST_insert_failure_keeps_upload_witness :
  POST sample_connectDB (rejecting_env (None, Some sample_result))
    (request form_complete) fresh_world
  = (Normal (json (MessageError "Event Creation Failed" "Event validation failed") 500),
     mkWorld connected
       [image_upload (file_bytes sample_file)]
       [event_document form_complete (secure_url sample_result)
          (VArray [VString "a"; VString "b"]) (VArray [VString "x"])]
       []
       [ErrorInstance "ValidationError" "Event validation failed"]).
Proof.
  apply (POST_insert_failure_keeps_upload sample_connectDB
           (rejecting_env (None, Some sample_result))
           (request form_complete) fresh_world (Some 7) connected form_complete sample_file
           (VArray [VString "a"; VString "b"]) (VArray [VString "x"]) sample_result
           (ErrorInstance "ValidationError" "Event validation failed"));
    try reflexivity; vm_compute; reflexivity.
Defined.

Lemma POST_effects_witness :
  let answer := (Some (NotAnError (VBool false)), Some sample_result) in
  let run := POST sample_connectDB (sample_env answer) (request form_complete) fresh_world in
  (uploads (snd run) = uploads fresh_world /\ creates (snd run) = creates fresh_world) \/
  exists form f,
    req_formData (request form_complete) = Fulfills form /\
    FormData_get "image" form = Some (EntryFile f) /\
    uploads (snd run) = uploads fresh_world ++ [image_upload (file_bytes f)] /\
    (creates (snd run) = creates fresh_world \/
     exists error res tags agenda,
       upload_stream (sample_env answer) (image_upload (file_bytes f)) = (error, Some res) /\
       truthy_error error = false /\
       json_value (ToString_entry (FormData_get "tags" form)) = Some tags /\
       json_value (ToString_entry (FormData_get "agenda" form)) = Some agenda /\
       creates (snd run)
       = creates fresh_world ++ [event_document form (secure_url res) tags agenda]).
Proof.
  intros answer run.
  apply (POST_effects sample_connectDB (sample_env answer)
           (request form_complete) fresh_world (snd run) (fst run)).
  subst run. apply surjective_pairing.
Defined.

Lemma POST_event_fields_witness :
  let event := sample_event form_repeated (VArray [VString "a"]) (VArray []) in
  (forall k, k <> "image" -> k <> "tags" -> k <> "agenda" ->
     doc_fields event !! k = value_of_entry <$> FormData_get_last k form_repeated) /\
  (exists url, doc_fields event !! "image" = Some (VString url)) /\
  doc_fields event !! "tags"
  = json_value (ToString_entry (FormData_get "tags" form_repeated)) /\
  doc_fields event !! "agenda"
  = json_value (ToString_entry (FormData_get "agenda" form_repeated)).
Proof.
  intros event.
  apply (POST_event_fields sample_connectDB (sample_env (None, Some sample_result))
           (request form_repeated) fresh_world
           (world_after_POST form_repeated (VArray [VString "a"]) (VArray []))
           form_repeated "Event created successfully" event).
  - reflexivity.
  - vm_compute. reflexivity.
Defined.

Lemma POST_upload_without_result_witness :
  POST sample_connectDB (sample_env (None, None)) (request form_complete) fresh_world
  = (Normal (json (MessageError "Event Creation Failed"
                     "Cannot read properties of undefined") 500),
     mkWorld connected [image_upload (file_bytes sample_file)] [] []
       [ErrorInstance "TypeError" "Cannot read properties of undefined"]).
Proof.
  apply (POST_upload_without_result sample_connectDB (sample_env (None, None))
           (request form_complete) fresh_world (Some 7) connected form_complete sample_file
           (VArray [VString "a"; VString "b"]) (VArray [VString "x"]));
    try reflexivity; vm_compute; reflexivity.
Defined.

Lemma handlers_reuse_connection_witness :
  let w := mkWorld connected [] [] [] [] in
  conn_state (snd (POST (connectDB_of AtModuleScope refusing_driver sample_uri)
                     (sample_env (None, Some sample_result)) (request form_complete) w))
  = connected /\
  conn_state (snd (GET (connectDB_of AtModuleScope refusing_driver sample_uri)
                     (sample_env (None, Some sample_result)) w))
  = connected.
Proof.
  intros w.
  apply (handlers_reuse_connection refusing_driver AtModuleScope sample_uri
           (sample_env (None, Some sample_result)) (request form_complete) w 7).
  reflexivity.
Defined.

Lemma first_POST_connects_once_witness :
  conn_state (snd (POST (connectDB_of AtModuleScope (fun _ => Fulfills 7) sample_uri)
                     (sample_env (None, Some sample_result)) (request form_without_image)
                     fresh_world))
  = connected.
Proof.
  apply (first_POST_connects_once (fun _ => Fulfills 7) AtModuleScope sample_uri
           (sample_env (None, Some sample_result)) (request form_without_image)
           fresh_world 7);
    reflexivity.
Defined.

(** ** Truthiness on sample values *)

Example number_is_zero_samples :
  map number_is_zero ["0"; "-0.00e5"; "1e-400"; "2e-324"; "3e-324"; "5e-324"; "0.1"; "1E3"]
  = [true; true; true; true; false; false; false; false].
Proof. vm_compute. reflexivity. Qed.

Example truthy_samples :
  map truthy [VUndefined; VNull; VBool false; VString ""; VNumber "0";
              VBool true; VString "0"; VNumber "1"; VArray []; VObject []]
  = [false; false; false; false; false; true; true; true; true; true].
Proof. vm_compute. reflexivity. Qed.

(** A callback whose error is falsy resolves the upload: with a result the
    event is created. *)
Example POST_falsy_error_creates :
  fst (POST sample_connectDB (sample_env (Some (NotAnError (VBool false)), Some sample_result))
         (request form_complete) fresh_world)
  = Normal (json (MessageEvent "Event created successfully"
                    (sample_event form_complete (VArray [VString "a"; VString "b"])
                       (VArray [VString "x"]))) 201).
Proof. vm_compute. reflexivity. Qed.
